(** * Column type checks before a layer/datatable join

    A shallow embedding of [geonode/contrib/datatables/column_checker.py]
    (Python 2): the two literal tuples of Postgres type names, the
    [ColumnChecker] class with its predicates, the metadata lookup
    [get_column_datatype], the two public entry points
    [are_join_columns_compatible] and [get_column_join_stmt], and the
    schema-mutating [alter_column_to_var].

    The datastore (psycopg2 and the Postgres server behind it) is an
    oracle; the calls made to it, the connections that are open, the log
    records and the exceptions are explicit. *)

From Stdlib Require Import String Ascii List Bool Arith Lia.
Import ListNotations.
Open Scope string_scope.

(** ** Python values and exceptions *)

(** The values the module handles are [str] objects and [None]. *)
Definition pyval := option string.

Definition is_None (v : pyval) : bool :=
  match v with None => true | Some _ => false end.

(** [str(v)], which is also what [%s] and [{n}] render. *)
Definition py_str (v : pyval) : string :=
  match v with None => "None" | Some s => s end.

(** [==] between two values that are [str] or [None]. *)
Definition py_eq (a b : pyval) : bool :=
  match a, b with
  | None, None => true
  | Some x, Some y => String.eqb x y
  | _, _ => false
  end.

(** [x in t] for a tuple of strings. *)
Definition py_in (x : string) (t : list string) : bool :=
  existsb (String.eqb x) t.

(** The double quote character, as a one-character string. *)
Definition dq : string := String (ascii_of_nat 34) EmptyString.

(** Exception classes that occur.  [DriverError] stands for the psycopg2
    error hierarchy.  [KeyboardInterrupt] and [SystemExit] derive from
    [BaseException] only: they can be raised wherever the interpreter
    runs (an interrupt, or [sys.exit] called from a signal handler while
    a statement is running) and an [except Exception] clause lets them
    through. *)
Inductive exn_class :=
| DriverError | TypeError | ValueError | IndexError | UnboundLocalError
| KeyboardInterrupt | SystemExit.

(** An exception object: its class and its [args]. *)
Inductive exn := Exn (cls : exn_class) (args : list string).

(** [isinstance(e, Exception)] *)
Definition is_Exception (e : exn) : bool :=
  match e with
  | Exn KeyboardInterrupt _ | Exn SystemExit _ => false
  | Exn _ _ => true
  end.

Inductive outcome (A : Type) :=
| Ret (a : A)
| Raise (e : exn).
Arguments Ret {A} a.
Arguments Raise {A} e.

Definition omap {A B} (f : A -> B) (o : outcome A) : outcome B :=
  match o with Ret a => Ret (f a) | Raise e => Raise e end.

(** [e[0]], that is [e.args[0]]. *)
Definition exn_getitem0 (e : exn) : outcome string :=
  match e with
  | Exn _ (a :: _) => Ret a
  | Exn _ [] => Raise (Exn IndexError ["tuple index out of range"])
  end.

(** ** String formatting *)

Definition is_digit (c : ascii) : bool :=
  ((48 <=? nat_of_ascii c) && (nat_of_ascii c <=? 57))%nat.

Definition digit_value (c : ascii) : nat := (nat_of_ascii c - 48)%nat.

(** [tpl.format(a0, a1, ...)] for templates whose fields are [{0}] .. [{9}]. *)
Fixpoint str_format (tpl : string) (args : list pyval) : outcome string :=
  match tpl with
  | EmptyString => Ret EmptyString
  | String c rest =>
      if Ascii.eqb c "{" then
        match rest with
        | String d (String e rest') =>
            if is_digit d && Ascii.eqb e "}" then
              match nth_error args (digit_value d) with
              | Some a => omap (append (py_str a)) (str_format rest' args)
              | None => Raise (Exn IndexError ["tuple index out of range"])
              end
            else Raise (Exn ValueError ["unsupported format field"])
        | _ => Raise (Exn ValueError ["Single '{' encountered in format string"])
        end
      else if Ascii.eqb c "}" then
        Raise (Exn ValueError ["Single '}' encountered in format string"])
      else omap (String c) (str_format rest args)
  end.

(** [tpl % args] for templates whose only conversion is [%s]. *)
Fixpoint percent_format (tpl : string) (args : list pyval) : outcome string :=
  match tpl with
  | EmptyString =>
      match args with
      | [] => Ret EmptyString
      | _ :: _ =>
          Raise (Exn TypeError
                   ["not all arguments converted during string formatting"])
      end
  | String c rest =>
      if Ascii.eqb c "%" then
        match rest with
        | String d rest' =>
            if Ascii.eqb d "s" then
              match args with
              | a :: args' =>
                  omap (append (py_str a)) (percent_format rest' args')
              | [] =>
                  Raise (Exn TypeError
                           ["not enough arguments for format string"])
              end
            else Raise (Exn ValueError ["unsupported format character"])
        | EmptyString => Raise (Exn ValueError ["incomplete format"])
        end
      else omap (String c) (percent_format rest args)
  end.

(** ** The datastore and the observable state *)

(** A connection handle: the number of the [psycopg2.connect] call that
    produced it. *)
Definition Conn := nat.

(** What [cur.execute(stmt)] does: raise, or leave a result whose first
    row, if there is one, has the given first column ([None] for NULL). *)
Inductive exec_answer :=
| ExecRaises (e : exn)
| ExecRows (first : option pyval).

Record Datastore := {
  ds_connect : nat -> option exn;
  ds_execute : Conn -> string -> exec_answer;
  ds_commit : Conn -> option exn
}.

Inductive logarg := LStr (s : string) | LExn (e : exn).

Inductive event :=
| EvConnect (c : Conn)
| EvConnectFailed (e : exn)
| EvExecute (c : Conn) (stmt : string)
| EvCommit (c : Conn)
| EvClose (c : Conn)
| EvTraceback (e : exn)
| EvLogError (msg : string) (args : list logarg).

(** [attempts]: calls of [psycopg2.connect] so far; [live]: connections
    opened and not closed; [trace]: everything done, newest first. *)
Record Db := {
  attempts : nat;
  live : list Conn;
  trace : list event
}.

Definition Db0 : Db := {| attempts := 0; live := []; trace := [] |}.

Definition record (ev : event) (st : Db) : Db :=
  {| attempts := attempts st; live := live st; trace := ev :: trace st |}.

Fixpoint remove_first (c : Conn) (l : list Conn) : list Conn :=
  match l with
  | [] => []
  | x :: l' => if Nat.eqb x c then l' else x :: remove_first c l'
  end.

(** ** Computations: state passing with exceptions *)

Definition M (A : Type) := Db -> Db * outcome A.

Definition ret {A} (a : A) : M A := fun st => (st, Ret a).
Definition raise {A} (e : exn) : M A := fun st => (st, Raise e).
Definition lift {A} (o : outcome A) : M A := fun st => (st, o).

Definition bind {A B} (m : M A) (k : A -> M B) : M B :=
  fun st =>
    match m st with
    | (st1, Ret a) => k a st1
    | (st1, Raise e) => (st1, Raise e)
    end.

Notation "x <- m ;; k" := (bind m (fun x => k))
  (at level 61, m at next level, right associativity).
Notation "' pat <- m ;; k" :=
  (bind m (fun x => match x with pat => k end))
  (at level 61, pat pattern, m at next level, right associativity).
Notation "m ;;; k" := (bind m (fun _ => k))
  (at level 61, right associativity).

(** A [try] suite whose first statement is [conn = psycopg2.connect(...)].
    Beside its outcome it yields the local [conn] as it stands when the
    suite is left: [None] while the name is still unbound. *)
Definition try_suite (A : Type) := Db -> Db * (option Conn * outcome A).

(** [try: ... except Exception as e: ...]: the handler runs for an
    exception that is an instance of [Exception]; any other one leaves
    the statement as it is. *)
Definition try_except {A} (body : try_suite A)
    (handler : option Conn -> exn -> M A) : M A :=
  fun st =>
    match body st with
    | (st1, (_, Ret a)) => (st1, Ret a)
    | (st1, (conn, Raise e)) =>
        if is_Exception e then handler conn e st1 else (st1, Raise e)
    end.

(** [try: ... except Exception as e: ... finally: ...]: the handler runs
    for an instance of [Exception] only; the [finally] suite runs last on
    every path, and an exception it raises replaces the pending return
    value or exception. *)
Definition try_except_finally {A} (body : try_suite A)
    (handler : option Conn -> exn -> M A)
    (final : option Conn -> M unit) : M A :=
  fun st =>
    match body st with
    | (st1, (conn, r)) =>
        let '(st2, r2) :=
          match r with
          | Ret a => (st1, Ret a)
          | Raise e =>
              if is_Exception e then handler conn e st1 else (st1, Raise e)
          end in
        match final conn st2 with
        | (st3, Ret _) => (st3, r2)
        | (st3, Raise e') => (st3, Raise e')
        end
    end.

(** Reading the local [conn]. *)
Definition read_conn (conn : option Conn) : M Conn :=
  match conn with
  | Some c => ret c
  | None =>
      raise (Exn UnboundLocalError
               ["local variable 'conn' referenced before assignment"])
  end.

Section Driver.

Variable ds : Datastore.

(** [psycopg2.connect(get_datastore_connection_string())] *)
Definition psycopg2_connect : M Conn :=
  fun st =>
    let n := attempts st in
    match ds_connect ds n with
    | Some e =>
        ({| attempts := S n; live := live st;
            trace := EvConnectFailed e :: trace st |}, Raise e)
    | None =>
        ({| attempts := S n; live := n :: live st;
            trace := EvConnect n :: trace st |}, Ret n)
    end.

(** [cur = conn.cursor(); cur.execute(stmt)]; the cursor is represented
    by what [fetchone] will give. *)
Definition cursor_execute (conn : Conn) (stmt : string)
  : M (option pyval) :=
  fun st =>
    let st1 := record (EvExecute conn stmt) st in
    match ds_execute ds conn stmt with
    | ExecRaises e => (st1, Raise e)
    | ExecRows first => (st1, Ret first)
    end.

(** [conn.commit()] *)
Definition conn_commit (conn : Conn) : M unit :=
  fun st =>
    let st1 := record (EvCommit conn) st in
    match ds_commit ds conn with
    | Some e => (st1, Raise e)
    | None => (st1, Ret tt)
    end.

(** [conn.close()] *)
Definition conn_close (conn : Conn) : M unit :=
  fun st =>
    ({| attempts := attempts st; live := remove_first conn (live st);
        trace := EvClose conn :: trace st |}, Ret tt).

(** [row[0]] where [row] is what [cur.fetchone()] returned. *)
Definition row_getitem0 (row : option pyval) : M pyval :=
  match row with
  | Some v => ret v
  | None =>
      raise (Exn TypeError
               ["'NoneType' object has no attribute '__getitem__'"])
  end.

(** [traceback.print_exc(sys.exc_info())] *)
Definition print_exc (e : exn) : M unit :=
  fun st => (record (EvTraceback e) st, Ret tt).

(** [LOGGER.error(msg, arg, ...)] *)
Definition LOGGER_error (msg : string) (args : list logarg) : M unit :=
  fun st => (record (EvLogError msg args) st, Ret tt).

(** The suite [conn = psycopg2.connect(...); rest]. *)
Definition connect_then {A} (rest : Conn -> M A) : try_suite A :=
  fun st =>
    match psycopg2_connect st with
    | (st1, Raise e) => (st1, (None, Raise e))
    | (st1, Ret c) =>
        let '(st2, r) := rest c st1 in (st2, (Some c, r))
    end.

(** ** column_checker.py *)

Definition POSTGRES_CHAR_DATATYPES : list string :=
  ["character varying"; "varchar"; "character"; "char"; "text"].

Definition POSTGRES_NUMERIC_DATATYPES : list string :=
  ["smallint"; "integer"; "bigint"; "decimal"; "numeric"; "real";
   "double precision"; "smallserial"; "serial"; "bigserial"].

Record ColumnChecker := {
  target_table : pyval;
  target_attribute : pyval;
  dt_table : pyval;
  dt_attribute : pyval
}.

Definition is_character_column (data_type : pyval) : bool :=
  match data_type with
  | None => false
  | Some s => if py_in s POSTGRES_CHAR_DATATYPES then true else false
  end.

Definition is_numeric_column (data_type : pyval) : bool :=
  match data_type with
  | None => false
  | Some s => if py_in s POSTGRES_NUMERIC_DATATYPES then true else false
  end.

Definition get_type_text_char_or_numeric (data_type : pyval) : pyval :=
  match data_type with
  | None => None
  | Some _ =>
      if is_character_column data_type then
        Some ("a " ++ dq ++ "character" ++ dq)
      else if is_numeric_column data_type then
        Some ("a " ++ dq ++ "numeric" ++ dq)
      else Some "neither a character nor a numeric"
  end.

Definition get_column_datatype (table_name table_attribute : pyval)
  : M (bool * pyval) :=
  if is_None table_name || is_None table_attribute then
    ret (false, Some "The table_name and table_attribute must be specified.")
  else
    where_clause <- lift (str_format
        "WHERE table_name = '{0}' AND column_name='{1}';"
        [table_name; table_attribute]) ;;
    let sql_target_data_type :=
      "SELECT data_type " ++ "FROM information_schema.columns "
        ++ where_clause in
    try_except
      (connect_then (fun conn =>
         cur <- cursor_execute conn sql_target_data_type ;;
         data_type <- row_getitem0 cur ;;
         conn_close conn ;;;
         ret (true, data_type)))
      (fun conn e =>
         (c <- read_conn conn ;; conn_close c) ;;;
         print_exc e ;;;
         e0 <- lift (exn_getitem0 e) ;;
         err_msg <- lift (percent_format
             "Error finding data type for column '%s' in table '%s': %s"
             [table_attribute; table_name; Some e0]) ;;
         LOGGER_error err_msg [] ;;;
         ret (false, Some err_msg)).

Definition alter_column_to_var (table_name attr_name : pyval)
  : M (bool * pyval) :=
  if is_None table_name then ret (false, Some "table_name cannot be None")
  else if is_None attr_name then
    ret (false, Some "attr_name cannot be None")
  else
    s1 <- lift (str_format "ALTER TABLE {0} ALTER COLUMN" [table_name]) ;;
    s2 <- lift (str_format " {0} TYPE varchar(255) USING {0}::varchar;"
                  [attr_name]) ;;
    let stmt := s1 ++ s2 in
    try_except_finally
      (connect_then (fun conn =>
         cursor_execute conn stmt ;;;
         conn_commit conn ;;;
         ret (true, None)))
      (fun _ e =>
         LOGGER_error ("Exception running SQL stmt %s:" ++
                       String (ascii_of_nat 10) "%s") [LStr stmt; LExn e] ;;;
         ret (false,
              Some "Error when trying to convert numeric column to character"))
      (fun conn => c <- read_conn conn ;; conn_close c).

(** The message both entry points build when the pair is rejected. *)
Definition incompatible_err_msg (self : ColumnChecker)
    (target_data_type datatable_data_type : pyval) : outcome string :=
  let target_type_text := get_type_text_char_or_numeric target_data_type in
  let dt_type_text := get_type_text_char_or_numeric datatable_data_type in
  str_format
    ("<br />Your chosen column " ++ dq ++ "{0}" ++ dq ++
     " is type {1}.  However, the chosen layer column " ++ dq ++ "{2}" ++
     dq ++ " is type {3}")
    [dt_attribute self; dt_type_text; target_attribute self;
     target_type_text].

Definition are_join_columns_compatible (self : ColumnChecker)
  : M (bool * pyval) :=
  '(retrieved, target_data_type) <-
      get_column_datatype (target_table self) (target_attribute self) ;;
  if negb retrieved then
    ret (false, Some "Sorry, the target column is not available.")
  else
    '(was_retrieved, datatable_data_type) <-
        get_column_datatype (dt_table self) (dt_attribute self) ;;
    if negb was_retrieved then
      ret (false, Some "The data type of your column was not available")
    else if py_eq target_data_type datatable_data_type then
      ret (true, None)
    else if is_character_column target_data_type
            && is_character_column datatable_data_type then
      ret (true, None)
    else if is_numeric_column target_data_type
            && is_numeric_column datatable_data_type then
      ret (true, None)
    else
      err_msg <- lift (incompatible_err_msg self target_data_type
                         datatable_data_type) ;;
      ret (false, Some err_msg).

Definition get_column_join_stmt (self : ColumnChecker)
    (with_casting : bool) : M (bool * pyval) :=
  '(retrieved, target_data_type) <-
      get_column_datatype (target_table self) (target_attribute self) ;;
  if negb retrieved then
    ret (false, Some "Sorry, the target column is not available.")
  else
    '(was_retrieved, datatable_data_type) <-
        get_column_datatype (dt_table self) (dt_attribute self) ;;
    if negb was_retrieved then
      ret (false, Some "The data type of your column was not available")
    else
      join_clause <- lift (percent_format
          ("%s." ++ dq ++ "%s" ++ dq ++ " = %s." ++ dq ++ "%s" ++ dq)
          [target_table self; target_attribute self;
           dt_table self; dt_attribute self]) ;;
      let varchar_str := "::varchar(255)" in
      if py_eq target_data_type datatable_data_type then
        ret (true, Some join_clause)
      else if is_character_column target_data_type
              && is_character_column datatable_data_type then
        ret (true, Some join_clause)
      else if is_numeric_column target_data_type
              && is_numeric_column datatable_data_type then
        ret (true, Some join_clause)
      else
        let reject :=
          err_msg <- lift (incompatible_err_msg self target_data_type
                             datatable_data_type) ;;
          ret (false, Some err_msg) in
        if false (* the source has [if False:   #with_casting:] *) then
          if is_character_column target_data_type
             && is_numeric_column datatable_data_type then
            '(success, msg) <-
                alter_column_to_var (dt_table self) (dt_attribute self) ;;
            if success then ret (true, Some join_clause)
            else ret (false, msg)
          else reject
        else reject.

End Driver.

(** The class of a column type as the checker decides it: the case
    analysis of [get_type_text_char_or_numeric], with a label in place of
    the text. *)
Inductive ColumnTypeClass := Unknown | Character | Numeric | Other.

Definition classifyType (data_type : pyval) : ColumnTypeClass :=
  match data_type with
  | None => Unknown
  | Some _ =>
      if is_character_column data_type then Character
      else if is_numeric_column data_type then Numeric
      else Other
  end.

Definition class_text (c : ColumnTypeClass) : pyval :=
  match c with
  | Unknown => None
  | Character => Some ("a " ++ dq ++ "character" ++ dq)
  | Numeric => Some ("a " ++ dq ++ "numeric" ++ dq)
  | Other => Some "neither a character nor a numeric"
  end.

(** The checker with target and candidate exchanged. *)
Definition swap_columns (self : ColumnChecker) : ColumnChecker :=
  {| target_table := dt_table self;
     target_attribute := dt_attribute self;
     dt_table := target_table self;
     dt_attribute := target_attribute self |}.

(** ** Sample datastores *)

(** The statement [get_column_datatype] sends for a table and a column. *)
Definition lookup_sql (t a : string) : string :=
  "SELECT data_type FROM information_schema.columns WHERE table_name = '"
    ++ t ++ "' AND column_name='" ++ a ++ "';".

Fixpoint catalog_answer (cat : list (string * string * pyval))
    (stmt : string) : exec_answer :=
  match cat with
  | [] => ExecRows None
  | (t, a, ty) :: cat' =>
      if String.eqb stmt (lookup_sql t a) then ExecRows (Some ty)
      else catalog_answer cat' stmt
  end.

(** A server that is up and whose catalog has exactly the listed columns. *)
Definition catalog_datastore (cat : list (string * string * pyval))
  : Datastore :=
  {| ds_connect := fun _ => None;
     ds_execute := fun _ stmt => catalog_answer cat stmt;
     ds_commit := fun _ => None |}.

(** A server that refuses every connection. *)
Definition unreachable_datastore : Datastore :=
  {| ds_connect := fun _ => Some (Exn DriverError ["could not connect to server"]);
     ds_execute := fun _ _ => ExecRows None;
     ds_commit := fun _ => None |}.

Definition sample_datastore : Datastore :=
  catalog_datastore
    [("parcels", "geoid", Some "character varying");
     ("parcels", "owner", Some "text");
     ("parcels", "uid", Some "uuid");
     ("parcels", "area", Some "real");
     ("parcels", "shape", Some "geometry");
     ("census", "geoid", Some "character varying");
     ("census", "tract", Some "integer");
     ("census", "name", Some "varchar");
     ("census", "uid", Some "uuid");
     ("census", "pop", Some "bigint");
     ("census", "note", None)].

Definition checker (tt ta dt da : string) : ColumnChecker :=
  {| target_table := Some tt; target_attribute := Some ta;
     dt_table := Some dt; dt_attribute := Some da |}.

(** The statement [alter_column_to_var] sends for a table and a column. *)
Definition alter_stmt (t a : string) : string :=
  "ALTER TABLE " ++ t ++ " ALTER COLUMN " ++ a
    ++ " TYPE varchar(255) USING " ++ a ++ "::varchar;".

(** [executes_only allowed ev]: the event is not a commit, and if it is
    the execution of a statement, the statement is one of [allowed]. *)
Definition executes_only (allowed : list string) (ev : event) : bool :=
  match ev with
  | EvCommit _ => false
  | EvExecute _ stmt => existsb (String.eqb stmt) allowed
  | _ => true
  end.

(** [st'] is [st] after a run in which nothing was committed and no
    statement outside [allowed] was executed. *)
Definition extends_with (allowed : list string) (st st' : Db) : Prop :=
  exists evs,
    trace st' = (evs ++ trace st)%list
    /\ forallb (executes_only allowed) evs = true.

(** The two statements a checker may send: the lookup of its target
    column and the lookup of its candidate column. *)
Definition lookup_statements (self : ColumnChecker) : list string :=
  [lookup_sql (py_str (target_table self)) (py_str (target_attribute self));
   lookup_sql (py_str (dt_table self)) (py_str (dt_attribute self))].

(** A server that is up and on which every statement fails with the given
    exception. *)
Definition failing_datastore (e : exn) : Datastore :=
  {| ds_connect := fun _ => None;
     ds_execute := fun _ _ => ExecRaises e;
     ds_commit := fun _ => None |}.

(** A server that runs every statement and refuses every commit. *)
Definition no_commit_datastore : Datastore :=
  {| ds_connect := fun _ => None;
     ds_execute := fun _ _ => ExecRows None;
     ds_commit := fun _ => Some (Exn DriverError ["commit failed"]) |}.

(** * Properties *)

(** ** Formatting of the templates the module uses *)

Lemma append_empty_r (s : string) : s ++ EmptyString = s.
Proof. induction s as [|c s IH]; simpl; [reflexivity | now rewrite IH]. Qed.

Lemma where_clause_format (t a : pyval) :
  str_format "WHERE table_name = '{0}' AND column_name='{1}';" [t; a]
  = Ret ("WHERE table_name = '" ++ py_str t ++ "' AND column_name='"
           ++ py_str a ++ "';").
Proof. reflexivity. Qed.

Lemma lookup_error_format (a t : pyval) (e0 : string) :
  percent_format "Error finding data type for column '%s' in table '%s': %s"
    [a; t; Some e0]
  = Ret ("Error finding data type for column '" ++ py_str a ++ "' in table '"
           ++ py_str t ++ "': " ++ e0).
Proof.
  cbn. now rewrite append_empty_r.
Qed.

Lemma join_clause_format (tt ta dt da : pyval) :
  percent_format
    ("%s." ++ dq ++ "%s" ++ dq ++ " = %s." ++ dq ++ "%s" ++ dq)
    [tt; ta; dt; da]
  = Ret (py_str tt ++ "." ++ dq ++ py_str ta ++ dq ++ " = "
           ++ py_str dt ++ "." ++ dq ++ py_str da ++ dq).
Proof. reflexivity. Qed.

Lemma incompatible_err_msg_format (self : ColumnChecker) (t1 t2 : pyval) :
  incompatible_err_msg self t1 t2
  = Ret ("<br />Your chosen column " ++ dq ++ py_str (dt_attribute self)
           ++ dq ++ " is type "
           ++ py_str (get_type_text_char_or_numeric t2)
           ++ ".  However, the chosen layer column " ++ dq
           ++ py_str (target_attribute self) ++ dq ++ " is type "
           ++ py_str (get_type_text_char_or_numeric t1)).
Proof.
  rewrite <- (append_empty_r (py_str (get_type_text_char_or_numeric t1))).
  reflexivity.
Qed.

Lemma alter_stmt_format (t a : pyval) :
  str_format "ALTER TABLE {0} ALTER COLUMN" [t]
  = Ret ("ALTER TABLE " ++ py_str t ++ " ALTER COLUMN")
  /\ str_format " {0} TYPE varchar(255) USING {0}::varchar;" [a]
     = Ret (" " ++ py_str a ++ " TYPE varchar(255) USING " ++ py_str a
              ++ "::varchar;").
Proof. split; reflexivity. Qed.


(** ** The metadata lookup, case by case *)

Ltac unfold_run :=
  unfold try_except, try_except_finally, connect_then, psycopg2_connect,
    cursor_execute, conn_commit, conn_close, row_getitem0, print_exc,
    LOGGER_error, read_conn, bind, lift, ret, raise, record in *.

Lemma remove_first_head (c : Conn) (l : list Conn) :
  remove_first c (c :: l) = l.
Proof. simpl. now rewrite Nat.eqb_refl. Qed.

Section Lookup.

Variable ds : Datastore.

Lemma get_column_datatype_missing (t a : pyval) (st : Db) :
  is_None t || is_None a = true ->
  get_column_datatype ds t a st
  = (st, Ret (false,
              Some "The table_name and table_attribute must be specified.")).
Proof.
  intros H. unfold get_column_datatype. now rewrite H.
Qed.

(** The lookup with both names present, as one equation over the answers
    of the datastore; [handled e] is what becomes of an exception raised
    once the connection is open: the [except] clause for an instance of
    [Exception], nothing at all for another one. *)
Lemma get_column_datatype_cases (t a : string) (st : Db) :
  get_column_datatype ds (Some t) (Some a) st
  = let c := attempts st in
    match ds_connect ds c with
    | Some e =>
        ({| attempts := S c; live := live st;
            trace := EvConnectFailed e :: trace st |},
         if is_Exception e
         then Raise (Exn UnboundLocalError
                       ["local variable 'conn' referenced before assignment"])
         else Raise e)
    | None =>
        let sent := EvExecute c (lookup_sql t a) :: EvConnect c :: trace st in
        let handled (e : exn) :=
          if is_Exception e then
            match e with
            | Exn _ [] =>
                ({| attempts := S c; live := live st;
                    trace := EvTraceback e :: EvClose c :: sent |},
                 Raise (Exn IndexError ["tuple index out of range"]))
            | Exn _ (reason :: _) =>
                let err_msg :=
                  "Error finding data type for column '" ++ a
                    ++ "' in table '" ++ t ++ "': " ++ reason in
                ({| attempts := S c; live := live st;
                    trace := EvLogError err_msg [] :: EvTraceback e
                               :: EvClose c :: sent |},
                 Ret (false, Some err_msg))
            end
          else
            ({| attempts := S c; live := c :: live st; trace := sent |},
             Raise e) in
        match ds_execute ds c (lookup_sql t a) with
        | ExecRows (Some v) =>
            ({| attempts := S c; live := live st;
                trace := EvClose c :: sent |}, Ret (true, v))
        | ExecRows None =>
            handled (Exn TypeError
                       ["'NoneType' object has no attribute '__getitem__'"])
        | ExecRaises e => handled e
        end
    end.
Proof.
  unfold get_column_datatype. cbn [is_None orb].
  unfold_run. rewrite where_clause_format.
  change ("SELECT data_type " ++ "FROM information_schema.columns "
            ++ "WHERE table_name = '" ++ py_str (Some t)
            ++ "' AND column_name='" ++ py_str (Some a) ++ "';")
    with (lookup_sql t a).
  cbv zeta.
  destruct (ds_connect ds (attempts st)) as [e|].
  - destruct (is_Exception e); reflexivity.
  - destruct (ds_execute ds (attempts st) (lookup_sql t a)) as [e|[v|]];
      cbn [live attempts trace].
    + destruct (is_Exception e); [|reflexivity].
      destruct e as [cls [|reason args]]; cbn [exn_getitem0].
      * now rewrite remove_first_head.
      * rewrite lookup_error_format. cbn [live attempts trace py_str].
        now rewrite remove_first_head.
    + now rewrite remove_first_head.
    + cbn [is_Exception exn_getitem0]. rewrite lookup_error_format.
      cbn [live attempts trace py_str]. now rewrite remove_first_head.
Qed.

(** A refused connection leaves [conn] unbound, and the handler's
    [if conn:] raises. *)
Lemma get_column_datatype_connect_failed (t a : string) (st : Db) (e : exn) :
  ds_connect ds (attempts st) = Some e ->
  is_Exception e = true ->
  get_column_datatype ds (Some t) (Some a) st
  = ({| attempts := S (attempts st); live := live st;
        trace := EvConnectFailed e :: trace st |},
     Raise (Exn UnboundLocalError
              ["local variable 'conn' referenced before assignment"])).
Proof.
  intros H He. rewrite get_column_datatype_cases. cbv zeta.
  now rewrite H, He.
Qed.

Lemma get_column_datatype_found (t a : string) (st : Db) (v : pyval) :
  ds_connect ds (attempts st) = None ->
  ds_execute ds (attempts st) (lookup_sql t a) = ExecRows (Some v) ->
  get_column_datatype ds (Some t) (Some a) st
  = ({| attempts := S (attempts st); live := live st;
        trace := EvClose (attempts st)
                   :: EvExecute (attempts st) (lookup_sql t a)
                   :: EvConnect (attempts st) :: trace st |},
     Ret (true, v)).
Proof.
  intros Hc He. rewrite get_column_datatype_cases. cbv zeta.
  now rewrite Hc, He.
Qed.

Lemma get_column_datatype_no_row (t a : string) (st : Db) :
  ds_connect ds (attempts st) = None ->
  ds_execute ds (attempts st) (lookup_sql t a) = ExecRows None ->
  exists st',
    get_column_datatype ds (Some t) (Some a) st
    = (st', Ret (false,
                 Some ("Error finding data type for column '" ++ a
                         ++ "' in table '" ++ t
                         ++ "': 'NoneType' object has no attribute '__getitem__'")))
    /\ live st' = live st /\ attempts st' = S (attempts st).
Proof.
  intros Hc He. rewrite get_column_datatype_cases. cbv zeta.
  rewrite Hc, He. cbn [is_Exception].
  eexists. split; [reflexivity|]. split; reflexivity.
Qed.

(** The lookup leaves open exactly the connections that were open before,
    unless an exception that is not an instance of [Exception] was raised
    while its own connection was open: that connection then stays
    open. *)
Lemma get_column_datatype_live (t a : pyval) (st : Db) :
  live (fst (get_column_datatype ds t a st)) = live st
  \/ (exists e,
        snd (get_column_datatype ds t a st) = Raise e
        /\ is_Exception e = false
        /\ ds_connect ds (attempts st) = None
        /\ live (fst (get_column_datatype ds t a st))
           = attempts st :: live st).
Proof.
  destruct t as [t'|], a as [a'|];
    try (rewrite get_column_datatype_missing by reflexivity; now left).
  rewrite get_column_datatype_cases. cbv zeta.
  destruct (ds_connect ds (attempts st)) as [e|]; [now left|].
  destruct (ds_execute ds (attempts st) (lookup_sql t' a')) as [e|[v|]];
    try (now left).
  destruct (is_Exception e) eqn:He.
  - destruct e as [cls [|r args]]; now left.
  - right. exists e. repeat split; assumption.
Qed.

(** A lookup that returns, with either flag, has closed its connection. *)
Lemma get_column_datatype_returned_live (t a : pyval) (st st' : Db)
    (r : bool * pyval) :
  get_column_datatype ds t a st = (st', Ret r) -> live st' = live st.
Proof.
  intros H.
  destruct (get_column_datatype_live t a st) as [L|[e [F _]]];
    rewrite H in *; [exact L | discriminate F].
Qed.

(** A successful lookup made exactly one connection attempt. *)
Lemma get_column_datatype_success_attempts (t a : pyval) (st st' : Db)
    (v : pyval) :
  get_column_datatype ds t a st = (st', Ret (true, v)) ->
  attempts st' = S (attempts st).
Proof.
  destruct t as [t'|], a as [a'|];
    try (rewrite get_column_datatype_missing by reflexivity; discriminate).
  rewrite get_column_datatype_cases. cbv zeta.
  destruct (ds_connect ds (attempts st)) as [e|].
  - destruct (is_Exception e); discriminate.
  - destruct (ds_execute ds (attempts st) (lookup_sql t' a')) as [e|[w|]].
    + destruct (is_Exception e); [|discriminate].
      destruct e as [cls [|r args]]; discriminate.
    + intros H. inversion H. reflexivity.
    + cbn [is_Exception]. discriminate.
Qed.

(** A successful lookup had both names present. *)
Lemma get_column_datatype_success_names (t a : pyval) (st st' : Db)
    (v : pyval) :
  get_column_datatype ds t a st = (st', Ret (true, v)) ->
  exists t' a', t = Some t' /\ a = Some a'.
Proof.
  destruct t as [t'|], a as [a'|]; try (now eauto);
    rewrite get_column_datatype_missing by reflexivity; discriminate.
Qed.

End Lookup.

(** ** Comparison and membership *)

Lemma py_eq_true_iff (a b : pyval) : py_eq a b = true <-> a = b.
Proof.
  destruct a as [x|], b as [y|]; simpl; try (split; congruence).
  rewrite String.eqb_eq. split; congruence.
Qed.

Lemma py_eq_sym (a b : pyval) : py_eq a b = py_eq b a.
Proof.
  destruct a as [x|], b as [y|]; simpl; try reflexivity.
  apply String.eqb_sym.
Qed.

Lemma py_in_In (x : string) (t : list string) : py_in x t = true <-> In x t.
Proof.
  unfold py_in. rewrite existsb_exists. split.
  - intros [y [Hy He]]. apply String.eqb_eq in He. now subst.
  - intros H. exists x. split; [assumption | apply String.eqb_refl].
Qed.

Lemma is_character_column_In (s : string) :
  is_character_column (Some s) = true <-> In s POSTGRES_CHAR_DATATYPES.
Proof.
  unfold is_character_column. rewrite <- py_in_In.
  destruct (py_in s POSTGRES_CHAR_DATATYPES); split; congruence.
Qed.

Lemma is_numeric_column_In (s : string) :
  is_numeric_column (Some s) = true <-> In s POSTGRES_NUMERIC_DATATYPES.
Proof.
  unfold is_numeric_column. rewrite <- py_in_In.
  destruct (py_in s POSTGRES_NUMERIC_DATATYPES); split; congruence.
Qed.

(** No literal is in both tuples. *)
Lemma character_not_numeric (v : pyval) :
  is_character_column v = true -> is_numeric_column v = false.
Proof.
  destruct v as [s|]; [|discriminate].
  intros H. apply is_character_column_In in H.
  simpl in H. intuition (subst; reflexivity).
Qed.

(** ** The two entry points once the lookups are known *)

Section EntryPoints.

Variable ds : Datastore.
Variable self : ColumnChecker.

Local Notation "'lookup_target'" :=
  (get_column_datatype ds (target_table self) (target_attribute self)).
Local Notation "'lookup_candidate'" :=
  (get_column_datatype ds (dt_table self) (dt_attribute self)).

Lemma are_join_columns_compatible_target_raised (st0 st1 : Db) (e : exn) :
  lookup_target st0 = (st1, Raise e) ->
  are_join_columns_compatible ds self st0 = (st1, Raise e).
Proof.
  intros H.
  unfold are_join_columns_compatible, bind. now rewrite H.
Qed.

Lemma are_join_columns_compatible_target_failed (st0 st1 : Db) (m : pyval) :
  lookup_target st0 = (st1, Ret (false, m)) ->
  are_join_columns_compatible ds self st0
  = (st1, Ret (false, Some "Sorry, the target column is not available.")).
Proof.
  intros H.
  unfold are_join_columns_compatible, bind. now rewrite H.
Qed.

Lemma are_join_columns_compatible_candidate_raised (st0 st1 st2 : Db)
    (t1 : pyval) (e : exn) :
  lookup_target st0 = (st1, Ret (true, t1)) ->
  lookup_candidate st1 = (st2, Raise e) ->
  are_join_columns_compatible ds self st0 = (st2, Raise e).
Proof.
  intros H1 H2.
  unfold are_join_columns_compatible, bind. rewrite H1. cbn [negb].
  now rewrite H2.
Qed.

Lemma are_join_columns_compatible_candidate_failed (st0 st1 st2 : Db)
    (t1 m : pyval) :
  lookup_target st0 = (st1, Ret (true, t1)) ->
  lookup_candidate st1 = (st2, Ret (false, m)) ->
  are_join_columns_compatible ds self st0
  = (st2, Ret (false, Some "The data type of your column was not available")).
Proof.
  intros H1 H2.
  unfold are_join_columns_compatible, bind. rewrite H1. cbn [negb].
  now rewrite H2.
Qed.

Lemma are_join_columns_compatible_resolved (st0 st1 st2 : Db)
    (t1 t2 : pyval) :
  lookup_target st0 = (st1, Ret (true, t1)) ->
  lookup_candidate st1 = (st2, Ret (true, t2)) ->
  are_join_columns_compatible ds self st0
  = (st2,
     if py_eq t1 t2
        || is_character_column t1 && is_character_column t2
        || is_numeric_column t1 && is_numeric_column t2
     then Ret (true, None)
     else omap (fun msg => (false, Some msg))
            (incompatible_err_msg self t1 t2)).
Proof.
  intros H1 H2.
  unfold are_join_columns_compatible, bind. rewrite H1. cbn [negb].
  rewrite H2. cbn [negb].
  destruct (py_eq t1 t2); [reflexivity|].
  destruct (is_character_column t1 && is_character_column t2);
    [reflexivity|].
  destruct (is_numeric_column t1 && is_numeric_column t2); [reflexivity|].
  cbn [orb]. unfold lift, ret.
  now destruct (incompatible_err_msg self t1 t2).
Qed.

Variable with_casting : bool.

Lemma get_column_join_stmt_target_raised (st0 st1 : Db) (e : exn) :
  lookup_target st0 = (st1, Raise e) ->
  get_column_join_stmt ds self with_casting st0 = (st1, Raise e).
Proof.
  intros H.
  unfold get_column_join_stmt, bind. now rewrite H.
Qed.

Lemma get_column_join_stmt_target_failed (st0 st1 : Db) (m : pyval) :
  lookup_target st0 = (st1, Ret (false, m)) ->
  get_column_join_stmt ds self with_casting st0
  = (st1, Ret (false, Some "Sorry, the target column is not available.")).
Proof.
  intros H.
  unfold get_column_join_stmt, bind. now rewrite H.
Qed.

Lemma get_column_join_stmt_candidate_raised (st0 st1 st2 : Db)
    (t1 : pyval) (e : exn) :
  lookup_target st0 = (st1, Ret (true, t1)) ->
  lookup_candidate st1 = (st2, Raise e) ->
  get_column_join_stmt ds self with_casting st0 = (st2, Raise e).
Proof.
  intros H1 H2.
  unfold get_column_join_stmt, bind. rewrite H1. cbn [negb].
  now rewrite H2.
Qed.

Lemma get_column_join_stmt_candidate_failed (st0 st1 st2 : Db)
    (t1 m : pyval) :
  lookup_target st0 = (st1, Ret (true, t1)) ->
  lookup_candidate st1 = (st2, Ret (false, m)) ->
  get_column_join_stmt ds self with_casting st0
  = (st2, Ret (false, Some "The data type of your column was not available")).
Proof.
  intros H1 H2.
  unfold get_column_join_stmt, bind. rewrite H1. cbn [negb].
  now rewrite H2.
Qed.

Lemma get_column_join_stmt_resolved (st0 st1 st2 : Db) (t1 t2 : pyval) :
  lookup_target st0 = (st1, Ret (true, t1)) ->
  lookup_candidate st1 = (st2, Ret (true, t2)) ->
  get_column_join_stmt ds self with_casting st0
  = (st2,
     if py_eq t1 t2
        || is_character_column t1 && is_character_column t2
        || is_numeric_column t1 && is_numeric_column t2
     then Ret (true,
               Some (py_str (target_table self) ++ "." ++ dq
                       ++ py_str (target_attribute self) ++ dq ++ " = "
                       ++ py_str (dt_table self) ++ "." ++ dq
                       ++ py_str (dt_attribute self) ++ dq))
     else omap (fun msg => (false, Some msg))
            (incompatible_err_msg self t1 t2)).
Proof.
  intros H1 H2.
  unfold get_column_join_stmt, bind. rewrite H1. cbn [negb].
  rewrite H2. cbn [negb]. unfold lift at 1.
  rewrite join_clause_format.
  destruct (py_eq t1 t2); [reflexivity|].
  destruct (is_character_column t1 && is_character_column t2);
    [reflexivity|].
  destruct (is_numeric_column t1 && is_numeric_column t2); [reflexivity|].
  cbn [orb]. unfold lift, ret.
  now destruct (incompatible_err_msg self t1 t2).
Qed.

End EntryPoints.

(** A connection refused with an instance of [Exception] is not
    reported as a failed lookup: the exception raised in the handler of
    [get_column_datatype] leaves both entry points. *)
Lemma entry_points_connect_refused (ds : Datastore) (t a dt da : string)
    (with_casting : bool) (st : Db) (e : exn) :
  ds_connect ds (attempts st) = Some e ->
  is_Exception e = true ->
  snd (are_join_columns_compatible ds (checker t a dt da) st)
  = Raise (Exn UnboundLocalError
             ["local variable 'conn' referenced before assignment"])
  /\ snd (get_column_join_stmt ds (checker t a dt da) with_casting st)
     = Raise (Exn UnboundLocalError
                ["local variable 'conn' referenced before assignment"]).
Proof.
  intros H He.
  pose proof (get_column_datatype_connect_failed ds t a st e H He) as Hl.
  split.
  - now rewrite (are_join_columns_compatible_target_raised ds
                   (checker t a dt da) st _ _ Hl).
  - now rewrite (get_column_join_stmt_target_raised ds
                   (checker t a dt da) with_casting st _ _ Hl).
Qed.

(** ** Classification *)

Lemma classifyType_present (s : string) : classifyType (Some s) <> Unknown.
Proof.
  unfold classifyType.
  destruct (is_character_column (Some s));
    [|destruct (is_numeric_column (Some s))]; discriminate.
Qed.

Lemma classifyType_Character (v : pyval) :
  classifyType v = Character <-> is_character_column v = true.
Proof.
  destruct v as [s|]; unfold classifyType; [|split; discriminate].
  destruct (is_character_column (Some s)); [tauto|].
  destruct (is_numeric_column (Some s)); split; discriminate.
Qed.

Lemma classifyType_Numeric (v : pyval) :
  classifyType v = Numeric <-> is_numeric_column v = true.
Proof.
  destruct v as [s|]; unfold classifyType; [|split; discriminate].
  destruct (is_character_column (Some s)) eqn:Hc.
  - rewrite (character_not_numeric _ Hc). split; discriminate.
  - destruct (is_numeric_column (Some s)); split; congruence.
Qed.

(** C6. Every input gets exactly one class.  An absent type is [Unknown],
    which is not [Other].  A present string is [Character] exactly when it
    is, character for character, one of the five character literals,
    [Numeric] exactly when it is one of the ten numeric literals, and
    [Other] in every remaining case; upper case or padded spellings and
    [geometry] are [Other].  These classes are the ones decided by
    [is_character_column], [is_numeric_column] and
    [get_type_text_char_or_numeric], and no value is both a character and
    a numeric type. *)
Theorem classifyType_partition :
  classifyType None = Unknown
  /\ Unknown <> Other
  /\ (forall s, classifyType (Some s) <> Unknown)
  /\ (forall s, classifyType (Some s) = Character
                <-> In s ["character varying"; "varchar"; "character";
                          "char"; "text"])
  /\ (forall s, classifyType (Some s) = Numeric
                <-> In s ["smallint"; "integer"; "bigint"; "decimal";
                          "numeric"; "real"; "double precision";
                          "smallserial"; "serial"; "bigserial"])
  /\ (forall s, classifyType (Some s) = Other
                <-> ~ In s ["character varying"; "varchar"; "character";
                            "char"; "text"]
                    /\ ~ In s ["smallint"; "integer"; "bigint"; "decimal";
                               "numeric"; "real"; "double precision";
                               "smallserial"; "serial"; "bigserial"])
  /\ (forall v, classifyType v = Character <-> is_character_column v = true)
  /\ (forall v, classifyType v = Numeric <-> is_numeric_column v = true)
  /\ (forall v, ~ (is_character_column v = true
                   /\ is_numeric_column v = true))
  /\ (forall v, get_type_text_char_or_numeric v = class_text (classifyType v))
  /\ classifyType (Some "geometry") = Other
  /\ classifyType (Some "TEXT") = Other
  /\ classifyType (Some " text") = Other
  /\ classifyType (Some "text ") = Other
  /\ classifyType (Some "Integer") = Other.
Proof.
  repeat match goal with |- _ /\ _ => split end;
    try reflexivity; try discriminate.
  - apply classifyType_present.
  - intros s. rewrite classifyType_Character. apply is_character_column_In.
  - intros s. rewrite classifyType_Numeric. apply is_numeric_column_In.
  - intros s. rewrite <- is_character_column_In, <- is_numeric_column_In.
    unfold classifyType.
    destruct (is_character_column (Some s)),
      (is_numeric_column (Some s)); intuition congruence.
  - apply classifyType_Character.
  - apply classifyType_Numeric.
  - intros v [Hc Hn]. rewrite (character_not_numeric _ Hc) in Hn.
    discriminate.
  - intros [s|]; [|reflexivity].
    unfold get_type_text_char_or_numeric, classifyType.
    destruct (is_character_column (Some s)); [reflexivity|].
    destruct (is_numeric_column (Some s)); reflexivity.
Qed.

(** ** Parameter checks *)

(** C7. The parameter checks come before any call to the datastore:
    [get_column_datatype] with an absent table name or an absent column
    name returns the failure with the fixed message and leaves the state
    (connection attempts, open connections, trace) as it was, and
    [alter_column_to_var] with an absent name returns the failure naming
    that parameter, again with the state untouched. *)
Theorem missing_parameter_no_external_call (ds : Datastore) (st : Db) :
  (forall a, get_column_datatype ds None a st
             = (st, Ret (false,
                  Some "The table_name and table_attribute must be specified.")))
  /\ (forall t, get_column_datatype ds t None st
                = (st, Ret (false,
                     Some "The table_name and table_attribute must be specified.")))
  /\ alter_column_to_var ds None (Some "x") st
     = (st, Ret (false, Some "table_name cannot be None"))
  /\ (forall a, alter_column_to_var ds None a st
                = (st, Ret (false, Some "table_name cannot be None")))
  /\ (forall t, alter_column_to_var ds (Some t) None st
                = (st, Ret (false, Some "attr_name cannot be None"))).
Proof.
  repeat split; try reflexivity.
  intros t. apply get_column_datatype_missing. destruct t; reflexivity.
Qed.

(** ** Connections *)

Lemma alter_column_to_var_attempts (ds : Datastore) (t a : string) (st : Db) :
  attempts (fst (alter_column_to_var ds (Some t) (Some a) st))
  = S (attempts st).
Proof.
  unfold alter_column_to_var. cbn [is_None].
  destruct (alter_stmt_format (Some t) (Some a)) as [E1 E2].
  unfold_run. rewrite E1, E2.
  destruct (ds_connect ds (attempts st)) as [e|];
    [destruct (is_Exception e); reflexivity|].
  destruct (ds_execute ds (attempts st) _) as [e|r];
    cbn [fst attempts]; [destruct (is_Exception e); reflexivity|].
  destruct (ds_commit ds (attempts st)) as [e|];
    [destruct (is_Exception e)|]; reflexivity.
Qed.

Lemma alter_column_to_var_live (ds : Datastore) (t a : pyval) (st : Db) :
  live (fst (alter_column_to_var ds t a st)) = live st.
Proof.
  unfold alter_column_to_var.
  destruct (is_None t); [reflexivity|].
  destruct (is_None a); [reflexivity|].
  destruct (alter_stmt_format t a) as [E1 E2].
  unfold_run. rewrite E1, E2.
  destruct (ds_connect ds (attempts st)) as [e|];
    [destruct (is_Exception e); reflexivity|].
  destruct (ds_execute ds (attempts st) _) as [e|r]; cbn [fst live].
  - destruct (is_Exception e); cbn [fst live];
      now rewrite remove_first_head.
  - destruct (ds_commit ds (attempts st)) as [e|];
      [destruct (is_Exception e)|]; cbn [fst live];
      now rewrite remove_first_head.
Qed.

(** C9, against the code.  [alter_column_to_var] closes its connection
    in a [finally] clause and so releases it on every path.
    [get_column_datatype] closes its connection at the end of the [try]
    suite and in the [except Exception] clause only: it releases the
    connection on every path but one, the one where an exception that is
    not an instance of [Exception] is raised while the connection is
    open; on that path the exception leaves the lookup and the connection
    stays open.  With a statement interrupted by [KeyboardInterrupt] the
    lookup ends with connection [0] open, where the schema change on the
    same server ends with none. *)
Theorem lookup_keeps_connection_on_uncaught_exception
    (ds : Datastore) (st : Db) :
  (forall t a, live (fst (alter_column_to_var ds t a st)) = live st)
  /\ (forall t a,
        live (fst (get_column_datatype ds t a st)) = live st
        \/ (exists e,
              snd (get_column_datatype ds t a st) = Raise e
              /\ is_Exception e = false
              /\ live (fst (get_column_datatype ds t a st))
                 = attempts st :: live st))
  /\ get_column_datatype (failing_datastore (Exn KeyboardInterrupt []))
       (Some "parcels") (Some "geoid") Db0
     = ({| attempts := 1; live := [0];
           trace := [EvExecute 0 (lookup_sql "parcels" "geoid");
                     EvConnect 0] |},
        Raise (Exn KeyboardInterrupt []))
  /\ live (fst (alter_column_to_var
                  (failing_datastore (Exn KeyboardInterrupt []))
                  (Some "parcels") (Some "geoid") Db0)) = [].
Proof.
  split; [|split; [|split]].
  - intros t a. apply alter_column_to_var_live.
  - intros t a.
    destruct (get_column_datatype_live ds t a st) as [L|[e [R [E [_ L]]]]];
      [now left | right; now exists e].
  - reflexivity.
  - reflexivity.
Qed.

(** ** The verdict *)

Lemma accepted_iff (t1 t2 : pyval) :
  py_eq t1 t2
    || is_character_column t1 && is_character_column t2
    || is_numeric_column t1 && is_numeric_column t2 = true
  <-> t1 = t2
      \/ (is_character_column t1 = true /\ is_character_column t2 = true)
      \/ (is_numeric_column t1 = true /\ is_numeric_column t2 = true).
Proof.
  rewrite !orb_true_iff, !andb_true_iff, py_eq_true_iff. tauto.
Qed.

Lemma accepted_sym (t1 t2 : pyval) :
  py_eq t1 t2
    || is_character_column t1 && is_character_column t2
    || is_numeric_column t1 && is_numeric_column t2
  = py_eq t2 t1
      || is_character_column t2 && is_character_column t1
      || is_numeric_column t2 && is_numeric_column t1.
Proof.
  rewrite (py_eq_sym t1 t2).
  rewrite (andb_comm (is_character_column t1)).
  now rewrite (andb_comm (is_numeric_column t1)).
Qed.

(** C1. After two successful lookups giving the types [t1] (target) and
    [t2] (candidate), [are_join_columns_compatible] returns [(True, None)]
    if and only if the two values are equal, or both are character types,
    or both are numeric types; in every other case it returns [False]
    with the incompatibility explanation.  Equality is tested first: two
    [uuid] columns, which are neither character nor numeric, are
    accepted. *)
Theorem are_join_columns_compatible_verdict
    (ds : Datastore) (self : ColumnChecker) (st0 st1 st2 : Db)
    (t1 t2 : pyval)
    (H1 : get_column_datatype ds (target_table self) (target_attribute self)
            st0 = (st1, Ret (true, t1)))
    (H2 : get_column_datatype ds (dt_table self) (dt_attribute self) st1
          = (st2, Ret (true, t2))) :
  (are_join_columns_compatible ds self st0 = (st2, Ret (true, None))
   <-> t1 = t2
       \/ (is_character_column t1 = true /\ is_character_column t2 = true)
       \/ (is_numeric_column t1 = true /\ is_numeric_column t2 = true))
  /\ (~ (t1 = t2
         \/ (is_character_column t1 = true /\ is_character_column t2 = true)
         \/ (is_numeric_column t1 = true /\ is_numeric_column t2 = true)) ->
      exists msg,
        incompatible_err_msg self t1 t2 = Ret msg
        /\ are_join_columns_compatible ds self st0
           = (st2, Ret (false, Some msg)))
  /\ (classifyType (Some "uuid") = Other
      /\ snd (are_join_columns_compatible sample_datastore
                (checker "parcels" "uid" "census" "uid") Db0)
         = Ret (true, None)).
Proof.
  rewrite (are_join_columns_compatible_resolved ds self st0 st1 st2 t1 t2 H1 H2).
  rewrite incompatible_err_msg_format. rewrite <- accepted_iff.
  destruct (py_eq t1 t2
            || is_character_column t1 && is_character_column t2
            || is_numeric_column t1 && is_numeric_column t2).
  - split; [tauto|]. split; [intros H; now elim H|].
    split; reflexivity.
  - cbn [omap]. split; [split; [intros H; inversion H | discriminate]|].
    split; [|split; reflexivity].
    intros _. eexists. split; reflexivity.
Qed.

Lemma are_join_columns_compatible_verdict_witness :
  exists st1 st2,
    get_column_datatype sample_datastore (Some "parcels") (Some "owner") Db0
    = (st1, Ret (true, Some "text"))
    /\ get_column_datatype sample_datastore (Some "census") (Some "name") st1
       = (st2, Ret (true, Some "varchar"))
    /\ (are_join_columns_compatible sample_datastore
          (checker "parcels" "owner" "census" "name") Db0
        = (st2, Ret (true, None))
        <-> Some "text" = Some "varchar"
            \/ (is_character_column (Some "text") = true
                /\ is_character_column (Some "varchar") = true)
            \/ (is_numeric_column (Some "text") = true
                /\ is_numeric_column (Some "varchar") = true)).
Proof.
  eexists. eexists.
  split; [vm_compute; reflexivity|].
  split; [vm_compute; reflexivity|].
  eapply proj1.
  eapply (are_join_columns_compatible_verdict sample_datastore
            (checker "parcels" "owner" "census" "name") Db0 _ _
            (Some "text") (Some "varchar")); vm_compute; reflexivity.
Defined.

(** C10. Exchanging target and candidate does not change the verdict:
    when the two lookups succeed with the same two types in either order,
    the checker and the exchanged checker return the same success flag
    (the attached text may differ). *)
Theorem compatibility_verdict_symmetric
    (ds : Datastore) (self : ColumnChecker)
    (st0 st1 st2 st0' st1' st2' : Db) (t1 t2 : pyval)
    (H1 : get_column_datatype ds (target_table self) (target_attribute self)
            st0 = (st1, Ret (true, t1)))
    (H2 : get_column_datatype ds (dt_table self) (dt_attribute self) st1
          = (st2, Ret (true, t2)))
    (H1' : get_column_datatype ds (dt_table self) (dt_attribute self) st0'
           = (st1', Ret (true, t2)))
    (H2' : get_column_datatype ds (target_table self) (target_attribute self)
             st1' = (st2', Ret (true, t1))) :
  exists (b : bool) (p p' : pyval),
    snd (are_join_columns_compatible ds self st0) = Ret (b, p)
    /\ snd (are_join_columns_compatible ds (swap_columns self) st0')
       = Ret (b, p').
Proof.
  rewrite (are_join_columns_compatible_resolved ds self st0 st1 st2 t1 t2 H1 H2).
  rewrite (are_join_columns_compatible_resolved ds (swap_columns self)
             st0' st1' st2' t2 t1 H1' H2').
  rewrite !incompatible_err_msg_format, (accepted_sym t2 t1).
  destruct (py_eq t1 t2
            || is_character_column t1 && is_character_column t2
            || is_numeric_column t1 && is_numeric_column t2); cbn [omap snd].
  - exists true, None, None. split; reflexivity.
  - eexists false, _, _. split; reflexivity.
Qed.

Lemma compatibility_verdict_symmetric_witness :
  exists (b : bool) (p p' : pyval),
    snd (are_join_columns_compatible sample_datastore
           (checker "parcels" "owner" "census" "tract") Db0) = Ret (b, p)
    /\ snd (are_join_columns_compatible sample_datastore
              (swap_columns (checker "parcels" "owner" "census" "tract")) Db0)
       = Ret (b, p').
Proof.
  eapply (compatibility_verdict_symmetric sample_datastore
            (checker "parcels" "owner" "census" "tract")
            Db0 _ _ Db0 _ _ (Some "text") (Some "integer"));
    vm_compute; reflexivity.
Defined.

(** ** The join statement *)

(** C2. From the same state and against the same datastore,
    [get_column_join_stmt] and [are_join_columns_compatible] do the same
    things to the datastore and end alike: both succeed or both fail, on
    failure with the same message (for a failed lookup of either column
    and for an incompatible pair), and an exception raised by a lookup
    leaves both in the same way.  On success the former carries the join
    clause where the latter carries [None]. *)
Theorem join_stmt_agrees_with_compatibility_check
    (ds : Datastore) (self : ColumnChecker) (with_casting : bool) (st : Db) :
  fst (get_column_join_stmt ds self with_casting st)
  = fst (are_join_columns_compatible ds self st)
  /\ match snd (get_column_join_stmt ds self with_casting st),
           snd (are_join_columns_compatible ds self st) with
     | Ret (true, clause), Ret (true, nothing) =>
         nothing = None
         /\ clause = Some (py_str (target_table self) ++ "." ++ dq
                             ++ py_str (target_attribute self) ++ dq ++ " = "
                             ++ py_str (dt_table self) ++ "." ++ dq
                             ++ py_str (dt_attribute self) ++ dq)
     | Ret (false, m1), Ret (false, m2) => m1 = m2 /\ m1 <> None
     | Raise e1, Raise e2 => e1 = e2
     | _, _ => False
     end.
Proof.
  destruct (get_column_datatype ds (target_table self) (target_attribute self)
              st) as [st1 [[[|] t1]|e1]] eqn:H1.
  - destruct (get_column_datatype ds (dt_table self) (dt_attribute self) st1)
      as [st2 [[[|] t2]|e2]] eqn:H2.
    + rewrite (get_column_join_stmt_resolved ds self with_casting
                 st st1 st2 t1 t2 H1 H2).
      rewrite (are_join_columns_compatible_resolved ds self
                 st st1 st2 t1 t2 H1 H2).
      rewrite incompatible_err_msg_format.
      destruct (py_eq t1 t2
                || is_character_column t1 && is_character_column t2
                || is_numeric_column t1 && is_numeric_column t2);
        cbn [fst snd omap]; repeat split; discriminate.
    + rewrite (get_column_join_stmt_candidate_failed ds self with_casting
                 st st1 st2 t1 t2 H1 H2).
      rewrite (are_join_columns_compatible_candidate_failed ds self
                 st st1 st2 t1 t2 H1 H2).
      cbn [fst snd]. repeat split; discriminate.
    + rewrite (get_column_join_stmt_candidate_raised ds self with_casting
                 st st1 st2 t1 e2 H1 H2).
      rewrite (are_join_columns_compatible_candidate_raised ds self
                 st st1 st2 t1 e2 H1 H2).
      split; reflexivity.
  - rewrite (get_column_join_stmt_target_failed ds self with_casting
               st st1 t1 H1).
    rewrite (are_join_columns_compatible_target_failed ds self st st1 t1 H1).
    cbn [fst snd]. repeat split; discriminate.
  - rewrite (get_column_join_stmt_target_raised ds self with_casting
               st st1 e1 H1).
    rewrite (are_join_columns_compatible_target_raised ds self st st1 e1 H1).
    split; reflexivity.
Qed.

(** C3. The casting branch is dead.  When one of the two columns is a
    character type and the other a numeric type, in either order,
    [get_column_join_stmt] returns [False] with the incompatibility
    explanation whatever [with_casting] is, and ends in the very state the
    second lookup left: two connection attempts, one per lookup, and no
    third one, which a call of [alter_column_to_var] would have made. *)
Theorem cast_path_never_runs
    (ds : Datastore) (self : ColumnChecker) (with_casting : bool)
    (st0 st1 st2 : Db) (t1 t2 : pyval)
    (H1 : get_column_datatype ds (target_table self) (target_attribute self)
            st0 = (st1, Ret (true, t1)))
    (H2 : get_column_datatype ds (dt_table self) (dt_attribute self) st1
          = (st2, Ret (true, t2)))
    (Hmixed : (is_character_column t1 = true /\ is_numeric_column t2 = true)
              \/ (is_numeric_column t1 = true
                  /\ is_character_column t2 = true)) :
  get_column_join_stmt ds self with_casting st0
  = (st2,
     Ret (false,
          Some ("<br />Your chosen column " ++ dq
                  ++ py_str (dt_attribute self) ++ dq ++ " is type a " ++ dq
                  ++ (if is_character_column t2 then "character"
                      else "numeric") ++ dq
                  ++ ".  However, the chosen layer column " ++ dq
                  ++ py_str (target_attribute self) ++ dq ++ " is type a "
                  ++ dq
                  ++ (if is_character_column t1 then "character"
                      else "numeric") ++ dq)))
  /\ attempts st2 = 2 + attempts st0
  /\ t1 <> t2
  /\ get_column_join_stmt ds self true st0
     = get_column_join_stmt ds self false st0.
Proof.
  assert (Hflags :
            (is_character_column t1 = true /\ is_numeric_column t1 = false
             /\ is_character_column t2 = false
             /\ is_numeric_column t2 = true)
            \/ (is_character_column t1 = false /\ is_numeric_column t1 = true
                /\ is_character_column t2 = true
                /\ is_numeric_column t2 = false)).
  { destruct Hmixed as [[Hc Hn]|[Hn Hc]].
    - left. repeat split; try assumption.
      + now apply character_not_numeric.
      + destruct (is_character_column t2) eqn:E; [|reflexivity].
        apply character_not_numeric in E. congruence.
    - right. repeat split; try assumption.
      + destruct (is_character_column t1) eqn:E; [|reflexivity].
        apply character_not_numeric in E. congruence.
      + now apply character_not_numeric. }
  assert (Hne : t1 <> t2).
  { intros ->. destruct Hflags as [[A [_ [B _]]]|[A [_ [B _]]]]; congruence. }
  assert (Heq : py_eq t1 t2 = false).
  { destruct (py_eq t1 t2) eqn:E; [|reflexivity].
    apply py_eq_true_iff in E. contradiction. }
  rewrite !(fun wc => get_column_join_stmt_resolved ds self wc
                        st0 st1 st2 t1 t2 H1 H2).
  rewrite incompatible_err_msg_format, Heq.
  assert (Hatt : attempts st2 = 2 + attempts st0).
  { rewrite (get_column_datatype_success_attempts ds _ _ st1 st2 t2 H2).
    rewrite (get_column_datatype_success_attempts ds _ _ st0 st1 t1 H1).
    reflexivity. }
  destruct t1 as [s1|];
    [|destruct Hflags as [[F _]|[_ [F _]]]; discriminate F].
  destruct t2 as [s2|];
    [|destruct Hflags as [[_ [_ [_ F]]]|[_ [_ [F _]]]]; discriminate F].
  unfold get_type_text_char_or_numeric.
  destruct Hflags as [[C1 [N1 [C2 N2]]]|[C1 [N1 [C2 N2]]]];
    rewrite C1, N1, C2, N2; cbn [andb orb omap py_str];
    (repeat match goal with |- _ /\ _ => split end;
     try reflexivity; try assumption).
Qed.

Lemma cast_path_never_runs_witness :
  (exists st2,
     get_column_join_stmt sample_datastore
       (checker "parcels" "owner" "census" "tract") true Db0
     = (st2,
        Ret (false,
             Some ("<br />Your chosen column " ++ dq ++ "tract" ++ dq
                     ++ " is type a " ++ dq ++ "numeric" ++ dq
                     ++ ".  However, the chosen layer column " ++ dq
                     ++ "owner" ++ dq ++ " is type a " ++ dq ++ "character"
                     ++ dq)))
     /\ attempts st2 = 2)
  /\ (exists st2,
        get_column_join_stmt sample_datastore
          (checker "census" "tract" "parcels" "owner") true Db0
        = (st2,
           Ret (false,
                Some ("<br />Your chosen column " ++ dq ++ "owner" ++ dq
                        ++ " is type a " ++ dq ++ "character" ++ dq
                        ++ ".  However, the chosen layer column " ++ dq
                        ++ "tract" ++ dq ++ " is type a " ++ dq ++ "numeric"
                        ++ dq)))
        /\ attempts st2 = 2).
Proof.
  split; eexists.
  - pose proof (cast_path_never_runs sample_datastore
                  (checker "parcels" "owner" "census" "tract") true
                  Db0 _ _ (Some "text") (Some "integer")
                  eq_refl eq_refl (or_introl (conj eq_refl eq_refl)))
      as [Hr [Ha _]].
    split; [exact Hr | exact Ha].
  - pose proof (cast_path_never_runs sample_datastore
                  (checker "census" "tract" "parcels" "owner") true
                  Db0 _ _ (Some "integer") (Some "text")
                  eq_refl eq_refl (or_intror (conj eq_refl eq_refl)))
      as [Hr [Ha _]].
    split; [exact Hr | exact Ha].
Defined.

(** C4. On a compatible pair [get_column_join_stmt] returns [True] with
    the clause made of the target table name, a dot, the target column
    name between double quotes, [ = ], the candidate table name, a dot and
    the candidate column name between double quotes: table names bare,
    column names quoted, and no cast suffix.  For target [parcels.geoid]
    and candidate [census.geoid] this is the expected text. *)
Theorem join_clause_shape
    (ds : Datastore) (self : ColumnChecker) (with_casting : bool)
    (st0 st1 st2 : Db) (t1 t2 : pyval)
    (H1 : get_column_datatype ds (target_table self) (target_attribute self)
            st0 = (st1, Ret (true, t1)))
    (H2 : get_column_datatype ds (dt_table self) (dt_attribute self) st1
          = (st2, Ret (true, t2)))
    (Hok : t1 = t2
           \/ (is_character_column t1 = true /\ is_character_column t2 = true)
           \/ (is_numeric_column t1 = true /\ is_numeric_column t2 = true)) :
  (exists targetTable targetColumn dtTable dtColumn : string,
     self = checker targetTable targetColumn dtTable dtColumn
     /\ get_column_join_stmt ds self with_casting st0
        = (st2,
           Ret (true,
                Some (targetTable ++ "." ++ dq ++ targetColumn ++ dq ++ " = "
                        ++ dtTable ++ "." ++ dq ++ dtColumn ++ dq))))
  /\ snd (get_column_join_stmt sample_datastore
            (checker "parcels" "geoid" "census" "geoid") with_casting Db0)
     = Ret (true,
            Some ("parcels." ++ dq ++ "geoid" ++ dq ++ " = census." ++ dq
                    ++ "geoid" ++ dq)).
Proof.
  split; [|destruct with_casting; reflexivity].
  destruct (get_column_datatype_success_names ds _ _ _ _ _ H1)
    as [tt [ta [Ett Eta]]].
  destruct (get_column_datatype_success_names ds _ _ _ _ _ H2)
    as [dt [da [Edt Eda]]].
  exists tt, ta, dt, da. split.
  - destruct self as [a b c d]. cbn in Ett, Eta, Edt, Eda. now subst.
  - rewrite (get_column_join_stmt_resolved ds self with_casting
               st0 st1 st2 t1 t2 H1 H2).
    apply accepted_iff in Hok. rewrite Hok, Ett, Eta, Edt, Eda.
    reflexivity.
Qed.

Lemma join_clause_shape_witness :
  exists st2,
    get_column_join_stmt sample_datastore
      (checker "parcels" "area" "census" "pop") true Db0
    = (st2,
       Ret (true,
            Some ("parcels." ++ dq ++ "area" ++ dq ++ " = census." ++ dq
                    ++ "pop" ++ dq))).
Proof.
  eexists.
  destruct (join_clause_shape sample_datastore
              (checker "parcels" "area" "census" "pop") true
              Db0 _ _ (Some "real") (Some "bigint") eq_refl eq_refl
              (or_intror (or_intror (conj eq_refl eq_refl))))
    as [[tt [ta [dt [da [E Hr]]]]] _].
  injection E as <- <- <- <-. exact Hr.
Defined.

(** ** Failures *)

(** C5, as the code has it.  A lookup that returns a failure makes
    [are_join_columns_compatible] return a lookup failure and never the
    incompatibility explanation.  When the target lookup fails the result
    is [False] with the text [Sorry, the target column is not available.]
    and the run ends in the state that lookup left, so the candidate is
    not looked up.  When the target lookup succeeds and the candidate
    lookup fails the result is [False] with the text
    [The data type of your column was not available].  No
    incompatibility explanation equals either text. *)
Theorem lookup_failure_messages
    (ds : Datastore) (self : ColumnChecker) (st0 st1 : Db) :
  (forall m,
     get_column_datatype ds (target_table self) (target_attribute self) st0
     = (st1, Ret (false, m)) ->
     are_join_columns_compatible ds self st0
     = (st1, Ret (false, Some "Sorry, the target column is not available.")))
  /\ (forall st2 t1 m,
        get_column_datatype ds (target_table self) (target_attribute self)
          st0 = (st1, Ret (true, t1)) ->
        get_column_datatype ds (dt_table self) (dt_attribute self) st1
        = (st2, Ret (false, m)) ->
        are_join_columns_compatible ds self st0
        = (st2,
           Ret (false, Some "The data type of your column was not available")))
  /\ (forall t1 t2 msg,
        incompatible_err_msg self t1 t2 = Ret msg ->
        msg <> "Sorry, the target column is not available."
        /\ msg <> "The data type of your column was not available").
Proof.
  split; [|split].
  - intros m H. now apply are_join_columns_compatible_target_failed with m.
  - intros st2 t1 m H1 H2.
    now apply are_join_columns_compatible_candidate_failed with st1 t1 m.
  - intros t1 t2 msg. rewrite incompatible_err_msg_format.
    intros H. injection H as <-. split; discriminate.
Qed.

Lemma lookup_failure_messages_witness :
  exists st1 st2,
    are_join_columns_compatible sample_datastore
      (checker "parcels" "missing" "census" "geoid") Db0
    = (st1, Ret (false, Some "Sorry, the target column is not available."))
    /\ attempts st1 = 1
    /\ are_join_columns_compatible sample_datastore
         (checker "parcels" "geoid" "census" "missing") Db0
       = (st2,
          Ret (false, Some "The data type of your column was not available")).
Proof.
  eexists. eexists. split; [|split].
  - eapply (proj1 (lookup_failure_messages sample_datastore
                     (checker "parcels" "missing" "census" "geoid") Db0 _)).
    vm_compute. reflexivity.
  - reflexivity.
  - eapply (proj1 (proj2 (lookup_failure_messages sample_datastore
                            (checker "parcels" "geoid" "census" "missing")
                            Db0 _))).
    + vm_compute. reflexivity.
    + vm_compute. reflexivity.
Defined.

(** The texts are not the ones without [Sorry, ] and with a lower-case
    initial: with a target column that the catalog does not have, the
    lookup returns a failure and the text returned is not
    [the target column is not available.]; with a candidate column that
    the catalog does not have, the text returned is not
    [the data type of your column was not available]. *)
Lemma lookup_failure_messages_counterexample :
  (exists st1 m,
     get_column_datatype sample_datastore (Some "parcels") (Some "missing")
       Db0 = (st1, Ret (false, m)))
  /\ snd (are_join_columns_compatible sample_datastore
            (checker "parcels" "missing" "census" "geoid") Db0)
     <> Ret (false, Some "the target column is not available.")
  /\ (exists st1 st2 m,
        get_column_datatype sample_datastore (Some "parcels") (Some "geoid")
          Db0 = (st1, Ret (true, Some "character varying"))
        /\ get_column_datatype sample_datastore (Some "census")
             (Some "missing") st1 = (st2, Ret (false, m)))
  /\ snd (are_join_columns_compatible sample_datastore
            (checker "parcels" "geoid" "census" "missing") Db0)
     <> Ret (false, Some "the data type of your column was not available").
Proof.
  split; [|split; [|split]].
  - eexists. eexists. vm_compute. reflexivity.
  - vm_compute. discriminate.
  - eexists. eexists. eexists. split; vm_compute; reflexivity.
  - vm_compute. discriminate.
Qed.

(** C8. For every incompatible pair both entry points return [False] with
    the text that names the candidate column and the text of its class,
    then the target column and the text of its class.  The text of the
    class of a present type is one of the three fixed texts; an absent
    type has the absent text [None], which the formatting renders as
    [None] without raising: building the message never raises. *)
Theorem incompatible_explanation_shape
    (ds : Datastore) (self : ColumnChecker) (with_casting : bool)
    (st0 st1 st2 : Db) (t1 t2 : pyval)
    (H1 : get_column_datatype ds (target_table self) (target_attribute self)
            st0 = (st1, Ret (true, t1)))
    (H2 : get_column_datatype ds (dt_table self) (dt_attribute self) st1
          = (st2, Ret (true, t2)))
    (Hno : ~ (t1 = t2
              \/ (is_character_column t1 = true
                  /\ is_character_column t2 = true)
              \/ (is_numeric_column t1 = true
                  /\ is_numeric_column t2 = true))) :
  let explanation :=
    "<br />Your chosen column " ++ dq ++ py_str (dt_attribute self) ++ dq
      ++ " is type " ++ py_str (get_type_text_char_or_numeric t2)
      ++ ".  However, the chosen layer column " ++ dq
      ++ py_str (target_attribute self) ++ dq ++ " is type "
      ++ py_str (get_type_text_char_or_numeric t1) in
  are_join_columns_compatible ds self st0
  = (st2, Ret (false, Some explanation))
  /\ get_column_join_stmt ds self with_casting st0
     = (st2, Ret (false, Some explanation))
  /\ get_type_text_char_or_numeric None = None
  /\ py_str (get_type_text_char_or_numeric None) = "None"
  /\ (forall s,
        get_type_text_char_or_numeric (Some s)
        = if is_character_column (Some s)
          then Some ("a " ++ dq ++ "character" ++ dq)
          else if is_numeric_column (Some s)
               then Some ("a " ++ dq ++ "numeric" ++ dq)
               else Some "neither a character nor a numeric")
  /\ (forall c a b, exists msg, incompatible_err_msg c a b = Ret msg).
Proof.
  intros explanation. subst explanation.
  rewrite (are_join_columns_compatible_resolved ds self st0 st1 st2 t1 t2 H1 H2).
  rewrite (get_column_join_stmt_resolved ds self with_casting
             st0 st1 st2 t1 t2 H1 H2).
  rewrite incompatible_err_msg_format.
  rewrite <- accepted_iff in Hno. apply not_true_is_false in Hno.
  rewrite Hno. cbn [omap].
  repeat match goal with |- _ /\ _ => split end; try reflexivity.
  intros c a b. rewrite incompatible_err_msg_format. eexists. reflexivity.
Qed.

Lemma incompatible_explanation_shape_witness :
  exists st2,
    are_join_columns_compatible sample_datastore
      (checker "parcels" "shape" "census" "note") Db0
    = (st2,
       Ret (false,
            Some ("<br />Your chosen column " ++ dq ++ "note" ++ dq
                    ++ " is type None.  However, the chosen layer column "
                    ++ dq ++ "shape" ++ dq
                    ++ " is type neither a character nor a numeric"))).
Proof.
  eexists.
  refine (proj1 (incompatible_explanation_shape sample_datastore
                   (checker "parcels" "shape" "census" "note") true
                   Db0 _ _ (Some "geometry") None eq_refl eq_refl _)).
  intros [H|[[H _]|[H _]]]; discriminate.
Defined.

(** * Further properties of the module *)

(** ** The lookup, outcome by outcome *)

(** X1. With both names present the lookup succeeds exactly when the
    server accepts the connection and the statement, which carries the two
    names spliced in as they are, has a first row; the value returned is
    the first column of that row, [None] for NULL, and the run consists of
    one connection, that one statement and the closing of the
    connection. *)
Theorem lookup_succeeds_iff_row_reported
    (ds : Datastore) (t a : string) (st st' : Db) (v : pyval) :
  get_column_datatype ds (Some t) (Some a) st = (st', Ret (true, v))
  <-> ds_connect ds (attempts st) = None
      /\ ds_execute ds (attempts st)
           ("SELECT data_type FROM information_schema.columns "
              ++ "WHERE table_name = '" ++ t ++ "' AND column_name='" ++ a
              ++ "';")
         = ExecRows (Some v)
      /\ st' = {| attempts := S (attempts st); live := live st;
                  trace := [EvClose (attempts st);
                            EvExecute (attempts st) (lookup_sql t a);
                            EvConnect (attempts st)] ++ trace st |}.
Proof.
  change ("SELECT data_type FROM information_schema.columns "
            ++ "WHERE table_name = '" ++ t ++ "' AND column_name='" ++ a
            ++ "';") with (lookup_sql t a).
  rewrite get_column_datatype_cases. cbv zeta.
  destruct (ds_connect ds (attempts st)) as [e|].
  - split; [destruct (is_Exception e); discriminate
           | intros [H _]; discriminate].
  - destruct (ds_execute ds (attempts st) (lookup_sql t a))
      as [e|[w|]]; cbn [app is_Exception].
    + split; [|intros [_ [H _]]; discriminate].
      destruct (is_Exception e); [|discriminate].
      destruct e as [cls [|r args]]; discriminate.
    + split.
      * intros H. injection H as <- <-. repeat split.
      * intros [_ [H ->]]. injection H as ->. reflexivity.
    + split; [discriminate | intros [_ [H _]]; discriminate].
Qed.

(** X2. A lookup that returns a failure after its parameter check has
    closed its connection and has logged, as its last action, the very
    message it returns.  That message names the column, then the table,
    and ends with the reason: the first argument of the exception the
    driver raised, unchanged, or the text of the [TypeError] that
    subscripting [None] gives when the statement has no row. *)
Theorem lookup_failure_is_logged
    (ds : Datastore) (t a : string) (st st' : Db) (m : pyval)
    (H : get_column_datatype ds (Some t) (Some a) st = (st', Ret (false, m))) :
  exists (reason : string) (e : exn),
    m = Some ("Error finding data type for column '" ++ a ++ "' in table '"
                ++ t ++ "': " ++ reason)
    /\ trace st'
       = ([EvLogError ("Error finding data type for column '" ++ a
                        ++ "' in table '" ++ t ++ "': " ++ reason) [];
          EvTraceback e;
          EvClose (attempts st);
          EvExecute (attempts st) (lookup_sql t a);
          EvConnect (attempts st)] ++ trace st)%list
    /\ live st' = live st
    /\ ((ds_execute ds (attempts st) (lookup_sql t a) = ExecRows None
         /\ reason = "'NoneType' object has no attribute '__getitem__'")
        \/ (exists cls args,
              ds_execute ds (attempts st) (lookup_sql t a)
              = ExecRaises (Exn cls (reason :: args)))).
Proof.
  rewrite get_column_datatype_cases in H. cbv zeta in H.
  destruct (ds_connect ds (attempts st)) as [e|];
    [destruct (is_Exception e); discriminate|].
  destruct (ds_execute ds (attempts st) (lookup_sql t a))
    as [e|[w|]]; cbn [is_Exception] in H; try discriminate.
  - destruct (is_Exception e); [|discriminate].
    destruct e as [cls [|r args]]; [discriminate|].
    injection H as <- <-. exists r, (Exn cls (r :: args)).
    repeat split. right. now exists cls, args.
  - injection H as <- <-.
    exists "'NoneType' object has no attribute '__getitem__'",
      (Exn TypeError ["'NoneType' object has no attribute '__getitem__'"]).
    repeat split. now left.
Qed.

Lemma lookup_failure_is_logged_witness :
  exists st',
    get_column_datatype
      (failing_datastore (Exn DriverError ["relation does not exist"; "42P01"]))
      (Some "parcels") (Some "geoid") Db0
    = (st', Ret (false,
                 Some "Error finding data type for column 'geoid' in table 'parcels': relation does not exist"))
    /\ live st' = [].
Proof.
  eexists. split; [vm_compute; reflexivity|].
  destruct (lookup_failure_is_logged
              (failing_datastore
                 (Exn DriverError ["relation does not exist"; "42P01"]))
              "parcels" "geoid" Db0 _ _ eq_refl)
    as [reason [e [_ [_ [Hl _]]]]].
  exact Hl.
Defined.

(** X3. The exceptions that leave [get_column_datatype], and the state
    each leaves behind.  Of the instances of [Exception] only two leave,
    both raised inside the [except] clause: [UnboundLocalError] when the
    connection was refused ([conn] is unbound at [if conn:]; nothing was
    opened, nothing is logged), and [IndexError] when the exception of the
    driver has no arguments ([e[0]] fails once the connection is closed
    and the traceback printed, before anything is logged).  An exception
    that is not an instance of [Exception] leaves as it is: raised by the
    connection attempt it leaves nothing open; raised by the statement it
    leaves the lookup with its connection still open and nothing
    logged. *)
Theorem lookup_escapes
    (ds : Datastore) (t a : pyval) (st st' : Db) (e : exn)
    (H : get_column_datatype ds t a st = (st', Raise e)) :
  exists t' a',
    t = Some t' /\ a = Some a'
    /\ ((e = Exn UnboundLocalError
               ["local variable 'conn' referenced before assignment"]
         /\ exists e0,
              ds_connect ds (attempts st) = Some e0
              /\ is_Exception e0 = true
              /\ st' = {| attempts := S (attempts st); live := live st;
                          trace := EvConnectFailed e0 :: trace st |})
        \/ (e = Exn IndexError ["tuple index out of range"]
            /\ ds_connect ds (attempts st) = None
            /\ exists cls,
                 ds_execute ds (attempts st) (lookup_sql t' a')
                 = ExecRaises (Exn cls [])
                 /\ is_Exception (Exn cls []) = true
                 /\ st' = {| attempts := S (attempts st); live := live st;
                             trace := [EvTraceback (Exn cls []);
                                       EvClose (attempts st);
                                       EvExecute (attempts st)
                                         (lookup_sql t' a');
                                       EvConnect (attempts st)]
                                        ++ trace st |})
        \/ (is_Exception e = false
            /\ ds_connect ds (attempts st) = Some e
            /\ st' = {| attempts := S (attempts st); live := live st;
                        trace := EvConnectFailed e :: trace st |})
        \/ (is_Exception e = false
            /\ ds_connect ds (attempts st) = None
            /\ ds_execute ds (attempts st) (lookup_sql t' a')
               = ExecRaises e
            /\ st' = {| attempts := S (attempts st);
                        live := attempts st :: live st;
                        trace := [EvExecute (attempts st) (lookup_sql t' a');
                                  EvConnect (attempts st)] ++ trace st |})).
Proof.
  destruct t as [t'|], a as [a'|];
    try (rewrite get_column_datatype_missing in H by reflexivity;
         discriminate).
  rewrite get_column_datatype_cases in H. cbv zeta in H.
  exists t', a'. split; [reflexivity|]. split; [reflexivity|].
  destruct (ds_connect ds (attempts st)) as [e0|].
  - destruct (is_Exception e0) eqn:E0; injection H as <- <-.
    + left. split; [reflexivity|]. now exists e0.
    + right. right. left. now repeat split.
  - destruct (ds_execute ds (attempts st) (lookup_sql t' a'))
      as [e1|[w|]]; cbn [is_Exception] in H; try discriminate.
    destruct (is_Exception e1) eqn:E1.
    + destruct e1 as [cls [|r args]]; [|discriminate].
      injection H as <- <-. right. left. split; [reflexivity|].
      split; [reflexivity|]. now exists cls.
    + injection H as <- <-. right. right. right. now repeat split.
Qed.

Lemma lookup_escapes_witness :
  exists st',
    get_column_datatype (failing_datastore (Exn SystemExit ["1"]))
      (Some "parcels") (Some "geoid") Db0
    = (st', Raise (Exn SystemExit ["1"]))
    /\ live st' = [0] /\ attempts st' = 1.
Proof.
  eexists. split; [vm_compute; reflexivity|].
  destruct (lookup_escapes (failing_datastore (Exn SystemExit ["1"]))
              (Some "parcels") (Some "geoid") Db0 _ _ eq_refl)
    as [t' [a' [_ [_ [[F _]|[[F _]|[[_ [F _]]|[_ [_ [_ Hs]]]]]]]]]];
    try discriminate F.
  split; reflexivity.
Defined.

(** ** The schema change, outcome by outcome *)

Lemma string_app_assoc (s1 s2 s3 : string) :
  (s1 ++ s2) ++ s3 = s1 ++ s2 ++ s3.
Proof.
  induction s1 as [|c s1 IH]; simpl; [reflexivity | now rewrite IH].
Qed.

(** [alter_column_to_var] with both names present, as one equation over
    the answers of the datastore. *)
Lemma alter_column_to_var_cases (ds : Datastore) (t a : string) (st : Db) :
  alter_column_to_var ds (Some t) (Some a) st
  = let c := attempts st in
    let failed := Some "Error when trying to convert numeric column to character" in
    let logged (e : exn) :=
      EvLogError ("Exception running SQL stmt %s:" ++
                  String (ascii_of_nat 10) "%s")
        [LStr (alter_stmt t a); LExn e] in
    match ds_connect ds c with
    | Some e =>
        ({| attempts := S c; live := live st;
            trace := if is_Exception e
                     then logged e :: EvConnectFailed e :: trace st
                     else EvConnectFailed e :: trace st |},
         Raise (Exn UnboundLocalError
                  ["local variable 'conn' referenced before assignment"]))
    | None =>
        let sent := EvExecute c (alter_stmt t a) :: EvConnect c :: trace st in
        match ds_execute ds c (alter_stmt t a) with
        | ExecRaises e =>
            if is_Exception e then
              ({| attempts := S c; live := live st;
                  trace := EvClose c :: logged e :: sent |},
               Ret (false, failed))
            else
              ({| attempts := S c; live := live st;
                  trace := EvClose c :: sent |}, Raise e)
        | ExecRows _ =>
            match ds_commit ds c with
            | Some e =>
                if is_Exception e then
                  ({| attempts := S c; live := live st;
                      trace := EvClose c :: logged e :: EvCommit c :: sent |},
                   Ret (false, failed))
                else
                  ({| attempts := S c; live := live st;
                      trace := EvClose c :: EvCommit c :: sent |}, Raise e)
            | None =>
                ({| attempts := S c; live := live st;
                    trace := EvClose c :: EvCommit c :: sent |},
                 Ret (true, None))
            end
        end
    end.
Proof.
  unfold alter_column_to_var. cbn [is_None].
  destruct (alter_stmt_format (Some t) (Some a)) as [E1 E2].
  unfold_run. rewrite E1, E2.
  change (("ALTER TABLE " ++ py_str (Some t) ++ " ALTER COLUMN")
            ++ " " ++ py_str (Some a) ++ " TYPE varchar(255) USING "
            ++ py_str (Some a) ++ "::varchar;")
    with (("ALTER TABLE " ++ t ++ " ALTER COLUMN")
            ++ " " ++ a ++ " TYPE varchar(255) USING " ++ a ++ "::varchar;").
  replace (("ALTER TABLE " ++ t ++ " ALTER COLUMN")
             ++ " " ++ a ++ " TYPE varchar(255) USING " ++ a ++ "::varchar;")
    with (alter_stmt t a).
  2:{ rewrite !string_app_assoc. reflexivity. }
  cbv zeta.
  destruct (ds_connect ds (attempts st)) as [e|];
    [destruct (is_Exception e); reflexivity|].
  destruct (ds_execute ds (attempts st) (alter_stmt t a)) as [e|r];
    cbn [live attempts trace].
  - destruct (is_Exception e); cbn [live attempts trace];
      now rewrite remove_first_head.
  - destruct (ds_commit ds (attempts st)) as [e|];
      [destruct (is_Exception e)|]; cbn [live attempts trace];
      now rewrite remove_first_head.
Qed.

(** X4. [alter_column_to_var] reports success exactly when the server
    accepted the connection, ran the [ALTER TABLE] statement built from
    the two names and accepted the commit; the value beside [True] is
    [None], and the run is: connect, execute, commit, close. *)
Theorem alter_succeeds_iff_committed
    (ds : Datastore) (t a : string) (st st' : Db) (p : pyval) :
  alter_column_to_var ds (Some t) (Some a) st = (st', Ret (true, p))
  <-> ds_connect ds (attempts st) = None
      /\ (exists r,
            ds_execute ds (attempts st)
              ("ALTER TABLE " ++ t ++ " ALTER COLUMN " ++ a
                 ++ " TYPE varchar(255) USING " ++ a ++ "::varchar;")
            = ExecRows r)
      /\ ds_commit ds (attempts st) = None
      /\ p = None
      /\ st' = {| attempts := S (attempts st); live := live st;
                  trace := [EvClose (attempts st); EvCommit (attempts st);
                            EvExecute (attempts st) (alter_stmt t a);
                            EvConnect (attempts st)] ++ trace st |}.
Proof.
  change ("ALTER TABLE " ++ t ++ " ALTER COLUMN " ++ a
            ++ " TYPE varchar(255) USING " ++ a ++ "::varchar;")
    with (alter_stmt t a).
  rewrite alter_column_to_var_cases. cbv zeta.
  destruct (ds_connect ds (attempts st)) as [e|].
  - split; [discriminate | intros [H _]; discriminate].
  - destruct (ds_execute ds (attempts st) (alter_stmt t a)) as [e|r].
    + split; [destruct (is_Exception e); discriminate
             | intros [_ [[r H] _]]; discriminate].
    + destruct (ds_commit ds (attempts st)) as [e|].
      * split; [destruct (is_Exception e); discriminate
               | intros [_ [_ [H _]]]; discriminate].
      * split.
        -- intros H. injection H as <- <-. repeat split. now exists r.
        -- intros [_ [_ [_ [-> ->]]]]. reflexivity.
Qed.

(** X5. Every failure [alter_column_to_var] returns once the connection
    is open, whether the statement or the commit went wrong, carries the
    same fixed text, without anything of the driver's exception in it;
    the statement and the exception go to the logger, and the connection
    is closed afterwards.  When the statement itself failed no commit was
    attempted. *)
Theorem alter_failure_is_generic
    (ds : Datastore) (t a : string) (st st' : Db) (m : pyval)
    (H : alter_column_to_var ds (Some t) (Some a) st
         = (st', Ret (false, m))) :
  m = Some "Error when trying to convert numeric column to character"
  /\ live st' = live st
  /\ exists e,
       let logged :=
         EvLogError ("Exception running SQL stmt %s:" ++
                     String (ascii_of_nat 10) "%s")
           [LStr (alter_stmt t a); LExn e] in
       (ds_execute ds (attempts st) (alter_stmt t a) = ExecRaises e
        /\ trace st'
           = ([EvClose (attempts st); logged;
               EvExecute (attempts st) (alter_stmt t a);
               EvConnect (attempts st)] ++ trace st)%list)
       \/ (ds_commit ds (attempts st) = Some e
           /\ trace st'
              = ([EvClose (attempts st); logged; EvCommit (attempts st);
                  EvExecute (attempts st) (alter_stmt t a);
                  EvConnect (attempts st)] ++ trace st)%list).
Proof.
  rewrite alter_column_to_var_cases in H. cbv zeta in H.
  destruct (ds_connect ds (attempts st)) as [e|]; [discriminate|].
  destruct (ds_execute ds (attempts st) (alter_stmt t a)) as [e|r].
  - destruct (is_Exception e); [|discriminate].
    injection H as <- <-. repeat split. exists e. left. split; reflexivity.
  - destruct (ds_commit ds (attempts st)) as [e|]; [|discriminate].
    destruct (is_Exception e); [|discriminate].
    injection H as <- <-. repeat split. exists e. right. split; reflexivity.
Qed.

Lemma alter_failure_is_generic_witness :
  exists st',
    alter_column_to_var no_commit_datastore (Some "census") (Some "tract") Db0
    = (st', Ret (false,
                 Some "Error when trying to convert numeric column to character"))
    /\ live st' = [].
Proof.
  eexists. split; [vm_compute; reflexivity|].
  exact (proj1 (proj2 (alter_failure_is_generic no_commit_datastore
                         "census" "tract" Db0 _ _ eq_refl))).
Defined.

(** X6. When the connection attempt fails, [alter_column_to_var] does
    not return the failure its [except] clause prepared, nor let the
    exception of the attempt through: the [finally] clause closes a
    connection that was never bound, and the [UnboundLocalError] it
    raises is what the caller gets.  For an instance of [Exception] the
    failure has been logged by then; for any other exception the
    [except] clause did not run and nothing is logged.  No connection is
    open. *)
Theorem alter_connect_refused_raises
    (ds : Datastore) (t a : string) (st : Db) (e : exn)
    (H : ds_connect ds (attempts st) = Some e) :
  alter_column_to_var ds (Some t) (Some a) st
  = ({| attempts := S (attempts st); live := live st;
        trace := (if is_Exception e
                  then [EvLogError ("Exception running SQL stmt %s:" ++
                                    String (ascii_of_nat 10) "%s")
                          [LStr (alter_stmt t a); LExn e]]
                  else [])
                   ++ [EvConnectFailed e] ++ trace st |},
     Raise (Exn UnboundLocalError
              ["local variable 'conn' referenced before assignment"])).
Proof.
  rewrite alter_column_to_var_cases. cbv zeta. rewrite H.
  destruct (is_Exception e); reflexivity.
Qed.

Lemma alter_connect_refused_raises_witness :
  snd (alter_column_to_var unreachable_datastore (Some "census")
         (Some "tract") Db0)
  = Raise (Exn UnboundLocalError
             ["local variable 'conn' referenced before assignment"]).
Proof.
  now rewrite (alter_connect_refused_raises unreachable_datastore
                 "census" "tract" Db0
                 (Exn DriverError ["could not connect to server"]) eq_refl).
Defined.

(** X14. An exception that is not an instance of [Exception], raised by
    the statement or by the commit, is not turned into a failure by
    [alter_column_to_var]: it leaves the function unchanged and unlogged,
    but only after the [finally] clause has closed the connection. *)
Theorem alter_uncaught_exception_closes_first
    (ds : Datastore) (t a : string) (st : Db) (e : exn)
    (Hc : ds_connect ds (attempts st) = None)
    (He : is_Exception e = false) :
  (ds_execute ds (attempts st) (alter_stmt t a) = ExecRaises e ->
   alter_column_to_var ds (Some t) (Some a) st
   = ({| attempts := S (attempts st); live := live st;
         trace := [EvClose (attempts st);
                   EvExecute (attempts st) (alter_stmt t a);
                   EvConnect (attempts st)] ++ trace st |},
      Raise e))
  /\ (forall r,
        ds_execute ds (attempts st) (alter_stmt t a) = ExecRows r ->
        ds_commit ds (attempts st) = Some e ->
        alter_column_to_var ds (Some t) (Some a) st
        = ({| attempts := S (attempts st); live := live st;
              trace := [EvClose (attempts st); EvCommit (attempts st);
                        EvExecute (attempts st) (alter_stmt t a);
                        EvConnect (attempts st)] ++ trace st |},
           Raise e)).
Proof.
  split.
  - intros Hx. rewrite alter_column_to_var_cases. cbv zeta.
    now rewrite Hc, Hx, He.
  - intros r Hx Hm. rewrite alter_column_to_var_cases. cbv zeta.
    now rewrite Hc, Hx, Hm, He.
Qed.

Lemma alter_uncaught_exception_closes_first_witness :
  alter_column_to_var (failing_datastore (Exn KeyboardInterrupt []))
    (Some "census") (Some "tract") Db0
  = ({| attempts := 1; live := [];
        trace := [EvClose 0; EvExecute 0 (alter_stmt "census" "tract");
                  EvConnect 0] |},
     Raise (Exn KeyboardInterrupt [])).
Proof.
  apply (proj1 (alter_uncaught_exception_closes_first
                  (failing_datastore (Exn KeyboardInterrupt []))
                  "census" "tract" Db0 (Exn KeyboardInterrupt [])
                  eq_refl eq_refl)).
  reflexivity.
Defined.

(** ** What the entry points do to the datastore *)

Lemma extends_with_refl (allowed : list string) (st : Db) :
  extends_with allowed st st.
Proof. exists []. split; reflexivity. Qed.

Lemma extends_with_trans (allowed : list string) (st1 st2 st3 : Db) :
  extends_with allowed st1 st2 -> extends_with allowed st2 st3 ->
  extends_with allowed st1 st3.
Proof.
  intros [evs1 [E1 R1]] [evs2 [E2 R2]]. exists (evs2 ++ evs1)%list. split.
  - now rewrite E2, E1, app_assoc.
  - now rewrite forallb_app, R1, R2.
Qed.

Lemma executes_only_weaken (l l' : list string) (ev : event) :
  (forall s, In s l -> In s l') ->
  executes_only l ev = true -> executes_only l' ev = true.
Proof.
  intros Hsub. destruct ev; simpl; try easy.
  rewrite !existsb_exists. intros [x [Hin He]]. exists x. auto.
Qed.

Lemma extends_with_weaken (l l' : list string) (st st' : Db) :
  (forall s, In s l -> In s l') ->
  extends_with l st st' -> extends_with l' st st'.
Proof.
  intros Hsub [evs [E R]]. exists evs. split; [exact E|].
  rewrite forallb_forall in *. intros ev Hev.
  apply executes_only_weaken with l; auto.
Qed.

(** One lookup: it commits nothing, executes at most the one statement
    built from its two names, and makes at most one connection
    attempt. *)
Lemma get_column_datatype_footprint (ds : Datastore) (t a : pyval) (st : Db) :
  extends_with [lookup_sql (py_str t) (py_str a)] st
    (fst (get_column_datatype ds t a st))
  /\ attempts st <= attempts (fst (get_column_datatype ds t a st))
     <= S (attempts st).
Proof.
  destruct t as [t'|], a as [a'|];
    try (rewrite get_column_datatype_missing by reflexivity;
         split; [apply extends_with_refl | cbn; lia]).
  rewrite get_column_datatype_cases. cbv zeta. cbn [py_str].
  assert (Hq : executes_only [lookup_sql t' a']
                 (EvExecute (attempts st) (lookup_sql t' a')) = true).
  { cbn [executes_only existsb]. now rewrite String.eqb_refl. }
  destruct (ds_connect ds (attempts st)) as [e|].
  - split; [|cbn; lia]. exists [EvConnectFailed e]. split; reflexivity.
  - destruct (ds_execute ds (attempts st) (lookup_sql t' a'))
      as [e|[w|]]; cbn [is_Exception].
    + destruct (is_Exception e).
      * destruct e as [cls [|r args]]; (split; [|cbn; lia]); cbn [fst].
        -- exists [EvTraceback (Exn cls []); EvClose (attempts st);
                   EvExecute (attempts st) (lookup_sql t' a');
                   EvConnect (attempts st)].
           split; [reflexivity|]. cbn [forallb]. rewrite Hq. reflexivity.
        -- eexists [EvLogError _ []; EvTraceback (Exn cls (r :: args));
                    EvClose (attempts st);
                    EvExecute (attempts st) (lookup_sql t' a');
                    EvConnect (attempts st)].
           split; [reflexivity|]. cbn [forallb]. rewrite Hq. reflexivity.
      * split; [|cbn; lia]. cbn [fst].
        exists [EvExecute (attempts st) (lookup_sql t' a');
                EvConnect (attempts st)].
        split; [reflexivity|]. cbn [forallb]. rewrite Hq. reflexivity.
    + split; [|cbn; lia]. cbn [fst].
      exists [EvClose (attempts st);
              EvExecute (attempts st) (lookup_sql t' a');
              EvConnect (attempts st)].
      split; [reflexivity|]. cbn [forallb]. rewrite Hq. reflexivity.
    + split; [|cbn; lia]. cbn [fst].
      eexists [EvLogError _ []; EvTraceback _; EvClose (attempts st);
               EvExecute (attempts st) (lookup_sql t' a');
               EvConnect (attempts st)].
      split; [reflexivity|]. cbn [forallb]. rewrite Hq. reflexivity.
Qed.

Section Footprint.

Variable ds : Datastore.
Variable self : ColumnChecker.

(** The state an entry point ends in is the one its last lookup left. *)
Lemma are_join_columns_compatible_final_state (st : Db) :
  fst (are_join_columns_compatible ds self st)
  = match get_column_datatype ds (target_table self) (target_attribute self)
            st with
    | (st1, Ret (true, _)) =>
        fst (get_column_datatype ds (dt_table self) (dt_attribute self) st1)
    | (st1, _) => st1
    end.
Proof.
  destruct (get_column_datatype ds (target_table self) (target_attribute self)
              st) as [st1 [[[|] t1]|e1]] eqn:H1.
  - destruct (get_column_datatype ds (dt_table self) (dt_attribute self) st1)
      as [st2 [[[|] t2]|e2]] eqn:H2.
    + now rewrite (are_join_columns_compatible_resolved ds self
                     st st1 st2 t1 t2 H1 H2).
    + now rewrite (are_join_columns_compatible_candidate_failed ds self
                     st st1 st2 t1 t2 H1 H2).
    + now rewrite (are_join_columns_compatible_candidate_raised ds self
                     st st1 st2 t1 e2 H1 H2).
  - now rewrite (are_join_columns_compatible_target_failed ds self
                   st st1 t1 H1).
  - now rewrite (are_join_columns_compatible_target_raised ds self
                   st st1 e1 H1).
Qed.

Lemma get_column_join_stmt_final_state (with_casting : bool) (st : Db) :
  fst (get_column_join_stmt ds self with_casting st)
  = match get_column_datatype ds (target_table self) (target_attribute self)
            st with
    | (st1, Ret (true, _)) =>
        fst (get_column_datatype ds (dt_table self) (dt_attribute self) st1)
    | (st1, _) => st1
    end.
Proof.
  destruct (get_column_datatype ds (target_table self) (target_attribute self)
              st) as [st1 [[[|] t1]|e1]] eqn:H1.
  - destruct (get_column_datatype ds (dt_table self) (dt_attribute self) st1)
      as [st2 [[[|] t2]|e2]] eqn:H2.
    + now rewrite (get_column_join_stmt_resolved ds self with_casting
                     st st1 st2 t1 t2 H1 H2).
    + now rewrite (get_column_join_stmt_candidate_failed ds self with_casting
                     st st1 st2 t1 t2 H1 H2).
    + now rewrite (get_column_join_stmt_candidate_raised ds self with_casting
                     st st1 st2 t1 e2 H1 H2).
  - now rewrite (get_column_join_stmt_target_failed ds self with_casting
                   st st1 t1 H1).
  - now rewrite (get_column_join_stmt_target_raised ds self with_casting
                   st st1 e1 H1).
Qed.

Lemma two_lookups_footprint (st : Db) :
  let st' :=
    match get_column_datatype ds (target_table self) (target_attribute self)
            st with
    | (st1, Ret (true, _)) =>
        fst (get_column_datatype ds (dt_table self) (dt_attribute self) st1)
    | (st1, _) => st1
    end in
  extends_with (lookup_statements self) st st'
  /\ attempts st <= attempts st' <= attempts st + 2.
Proof.
  pose proof (get_column_datatype_footprint ds (target_table self)
                (target_attribute self) st) as [R1 A1].
  apply extends_with_weaken with (l' := lookup_statements self) in R1;
    [|intros s [<-|[]]; now left].
  destruct (get_column_datatype ds (target_table self) (target_attribute self)
              st) as [st1 [[[|] t1]|e1]]; cbn [fst] in *; cbv zeta;
    try (split; [assumption | lia]).
  pose proof (get_column_datatype_footprint ds (dt_table self)
                (dt_attribute self) st1) as [R2 A2].
  apply extends_with_weaken with (l' := lookup_statements self) in R2;
    [|intros s [<-|[]]; right; now left].
  split; [now apply extends_with_trans with st1 | lia].
Qed.

(** The connections an entry point leaves open. *)
Lemma are_join_columns_compatible_live (st : Db) :
  live (fst (are_join_columns_compatible ds self st)) = live st
  \/ (exists e,
        snd (are_join_columns_compatible ds self st) = Raise e
        /\ is_Exception e = false).
Proof.
  pose proof (get_column_datatype_live ds (target_table self)
                (target_attribute self) st) as L1.
  destruct (get_column_datatype ds (target_table self) (target_attribute self)
              st) as [st1 [[[|] t1]|e1]] eqn:H1; cbn [fst snd] in L1.
  - assert (E1 : live st1 = live st)
      by (destruct L1 as [L|[e [F _]]]; [exact L | discriminate F]).
    pose proof (get_column_datatype_live ds (dt_table self)
                  (dt_attribute self) st1) as L2.
    destruct (get_column_datatype ds (dt_table self) (dt_attribute self) st1)
      as [st2 [[[|] t2]|e2]] eqn:H2; cbn [fst snd] in L2.
    + rewrite (are_join_columns_compatible_resolved ds self
                 st st1 st2 t1 t2 H1 H2). cbn [fst]. left.
      destruct L2 as [L|[e [F _]]]; [congruence | discriminate F].
    + rewrite (are_join_columns_compatible_candidate_failed ds self
                 st st1 st2 t1 t2 H1 H2). cbn [fst]. left.
      destruct L2 as [L|[e [F _]]]; [congruence | discriminate F].
    + rewrite (are_join_columns_compatible_candidate_raised ds self
                 st st1 st2 t1 e2 H1 H2). cbn [fst snd].
      destruct L2 as [L|[e [F [E _]]]]; [left; congruence|].
      right. exists e. now split.
  - rewrite (are_join_columns_compatible_target_failed ds self
               st st1 t1 H1). cbn [fst]. left.
    destruct L1 as [L|[e [F _]]]; [exact L | discriminate F].
  - rewrite (are_join_columns_compatible_target_raised ds self
               st st1 e1 H1). cbn [fst snd].
    destruct L1 as [L|[e [F [E _]]]]; [now left|].
    right. exists e. now split.
Qed.

Lemma get_column_join_stmt_live (with_casting : bool) (st : Db) :
  live (fst (get_column_join_stmt ds self with_casting st)) = live st
  \/ (exists e,
        snd (get_column_join_stmt ds self with_casting st) = Raise e
        /\ is_Exception e = false).
Proof.
  pose proof (get_column_datatype_live ds (target_table self)
                (target_attribute self) st) as L1.
  destruct (get_column_datatype ds (target_table self) (target_attribute self)
              st) as [st1 [[[|] t1]|e1]] eqn:H1; cbn [fst snd] in L1.
  - assert (E1 : live st1 = live st)
      by (destruct L1 as [L|[e [F _]]]; [exact L | discriminate F]).
    pose proof (get_column_datatype_live ds (dt_table self)
                  (dt_attribute self) st1) as L2.
    destruct (get_column_datatype ds (dt_table self) (dt_attribute self) st1)
      as [st2 [[[|] t2]|e2]] eqn:H2; cbn [fst snd] in L2.
    + rewrite (get_column_join_stmt_resolved ds self with_casting
                 st st1 st2 t1 t2 H1 H2). cbn [fst]. left.
      destruct L2 as [L|[e [F _]]]; [congruence | discriminate F].
    + rewrite (get_column_join_stmt_candidate_failed ds self with_casting
                 st st1 st2 t1 t2 H1 H2). cbn [fst]. left.
      destruct L2 as [L|[e [F _]]]; [congruence | discriminate F].
    + rewrite (get_column_join_stmt_candidate_raised ds self with_casting
                 st st1 st2 t1 e2 H1 H2). cbn [fst snd].
      destruct L2 as [L|[e [F [E _]]]]; [left; congruence|].
      right. exists e. now split.
  - rewrite (get_column_join_stmt_target_failed ds self with_casting
               st st1 t1 H1). cbn [fst]. left.
    destruct L1 as [L|[e [F _]]]; [exact L | discriminate F].
  - rewrite (get_column_join_stmt_target_raised ds self with_casting
               st st1 e1 H1). cbn [fst snd].
    destruct L1 as [L|[e [F [E _]]]]; [now left|].
    right. exists e. now split.
Qed.

End Footprint.

(** X7. What the entry points do to the datastore, whatever the names,
    the flag and the answers of the datastore.  They never commit.  The
    only statements they execute are the lookup of the target column and
    the lookup of the candidate column, each the [SELECT] text with the
    two names spliced in as they are; the [ALTER TABLE] statement of
    [alter_column_to_var] is never one of them.  They make at most two
    connection attempts.  The connections open afterwards are the ones
    open before, unless the call was left by an exception that is not an
    instance of [Exception]. *)
Theorem entry_points_send_only_their_lookups
    (ds : Datastore) (self : ColumnChecker) (with_casting : bool) (st : Db) :
  (forall t a, ~ In (alter_stmt t a) (lookup_statements self))
  /\ (extends_with (lookup_statements self) st
        (fst (are_join_columns_compatible ds self st))
      /\ attempts st
         <= attempts (fst (are_join_columns_compatible ds self st))
         <= attempts st + 2
      /\ (live (fst (are_join_columns_compatible ds self st)) = live st
          \/ exists e,
               snd (are_join_columns_compatible ds self st) = Raise e
               /\ is_Exception e = false))
  /\ (extends_with (lookup_statements self) st
        (fst (get_column_join_stmt ds self with_casting st))
      /\ attempts st
         <= attempts (fst (get_column_join_stmt ds self with_casting st))
         <= attempts st + 2
      /\ (live (fst (get_column_join_stmt ds self with_casting st))
          = live st
          \/ exists e,
               snd (get_column_join_stmt ds self with_casting st) = Raise e
               /\ is_Exception e = false)).
Proof.
  split; [|split].
  - intros t a [F|[F|[]]]; discriminate F.
  - pose proof (two_lookups_footprint ds self st) as [R A].
    rewrite <- are_join_columns_compatible_final_state in R, A.
    split; [exact R|]. split; [exact A|].
    apply are_join_columns_compatible_live.
  - pose proof (two_lookups_footprint ds self st) as [R A].
    rewrite <- (get_column_join_stmt_final_state ds self with_casting)
      in R, A.
    split; [exact R|]. split; [exact A|].
    apply get_column_join_stmt_live.
Qed.

(** X8. An exception leaves an entry point exactly when one of its
    lookups raised it: the lookup of the target, or the lookup of the
    candidate after a successful lookup of the target; it is that
    exception, unchanged.  So once the lookups have returned, comparing
    the types and building the clause or the explanation never raises. *)
Theorem entry_point_raises_iff_lookup_raises
    (ds : Datastore) (self : ColumnChecker) (with_casting : bool) (st : Db)
    (e : exn) :
  (snd (are_join_columns_compatible ds self st) = Raise e
   <-> snd (get_column_datatype ds (target_table self)
              (target_attribute self) st) = Raise e
       \/ exists st1 t1,
            get_column_datatype ds (target_table self)
              (target_attribute self) st = (st1, Ret (true, t1))
            /\ snd (get_column_datatype ds (dt_table self)
                      (dt_attribute self) st1) = Raise e)
  /\ (snd (get_column_join_stmt ds self with_casting st) = Raise e
      <-> snd (get_column_datatype ds (target_table self)
                 (target_attribute self) st) = Raise e
          \/ exists st1 t1,
               get_column_datatype ds (target_table self)
                 (target_attribute self) st = (st1, Ret (true, t1))
               /\ snd (get_column_datatype ds (dt_table self)
                         (dt_attribute self) st1) = Raise e).
Proof.
  destruct (get_column_datatype ds (target_table self) (target_attribute self)
              st) as [st1 [[[|] t1]|e1]] eqn:H1.
  - destruct (get_column_datatype ds (dt_table self) (dt_attribute self) st1)
      as [st2 [[[|] t2]|e2]] eqn:H2.
    + rewrite (are_join_columns_compatible_resolved ds self
                 st st1 st2 t1 t2 H1 H2).
      rewrite (get_column_join_stmt_resolved ds self with_casting
                 st st1 st2 t1 t2 H1 H2).
      rewrite incompatible_err_msg_format. cbn [snd omap].
      destruct (py_eq t1 t2
                || is_character_column t1 && is_character_column t2
                || is_numeric_column t1 && is_numeric_column t2);
        (split; (split; [discriminate|]);
         intros [F|[s [u [E F]]]]; try discriminate F;
         injection E as <- <-; rewrite H2 in F; discriminate F).
    + rewrite (are_join_columns_compatible_candidate_failed ds self
                 st st1 st2 t1 t2 H1 H2).
      rewrite (get_column_join_stmt_candidate_failed ds self with_casting
                 st st1 st2 t1 t2 H1 H2).
      cbn [snd].
      split; (split; [discriminate|]);
        intros [F|[s [u [E F]]]]; try discriminate F;
        injection E as <- <-; rewrite H2 in F; discriminate F.
    + rewrite (are_join_columns_compatible_candidate_raised ds self
                 st st1 st2 t1 e2 H1 H2).
      rewrite (get_column_join_stmt_candidate_raised ds self with_casting
                 st st1 st2 t1 e2 H1 H2).
      cbn [snd].
      split; (split;
        [ intros E; right; exists st1, t1; split; [reflexivity|];
          now rewrite H2
        | intros [F|[s [u [E F]]]]; [discriminate F|];
          injection E as <- <-; now rewrite H2 in F ]).
  - rewrite (are_join_columns_compatible_target_failed ds self
               st st1 t1 H1).
    rewrite (get_column_join_stmt_target_failed ds self with_casting
               st st1 t1 H1).
    cbn [snd].
    split; (split; [discriminate|]);
      intros [F|[s [u [E F]]]]; discriminate.
  - rewrite (are_join_columns_compatible_target_raised ds self
               st st1 e1 H1).
    rewrite (get_column_join_stmt_target_raised ds self with_casting
               st st1 e1 H1).
    cbn [snd].
    split; (split; [intros E; now left|]);
      intros [F|[s [u [E F]]]]; [exact F | discriminate E
                                | exact F | discriminate E].
Qed.

(** ** Acceptance as a relation between types *)

Lemma accepted_trans (tA tB tC : pyval) :
  py_eq tA tB
    || is_character_column tA && is_character_column tB
    || is_numeric_column tA && is_numeric_column tB = true ->
  py_eq tB tC
    || is_character_column tB && is_character_column tC
    || is_numeric_column tB && is_numeric_column tC = true ->
  py_eq tA tC
    || is_character_column tA && is_character_column tC
    || is_numeric_column tA && is_numeric_column tC = true.
Proof.
  rewrite !accepted_iff.
  intros [->|[[HcA HcB]|[HnA HnB]]] [<-|[[HcB' HcC]|[HnB' HnC]]];
    try tauto.
  - apply character_not_numeric in HcB. congruence.
  - apply character_not_numeric in HcB'. congruence.
Qed.

(** X9. Acceptance is transitive, because no type name is both a
    character and a numeric one: when a checker whose lookups give the
    types [tA] and [tB] accepts, and one whose lookups give [tB] and [tC]
    accepts, then a checker whose lookups give [tA] and [tC] accepts. *)
Theorem compatibility_transitive
    (ds : Datastore) (cAB cBC cAC : ColumnChecker)
    (s0 s1 s2 u0 u1 u2 w0 w1 w2 : Db) (tA tB tC : pyval)
    (HAB1 : get_column_datatype ds (target_table cAB) (target_attribute cAB)
              s0 = (s1, Ret (true, tA)))
    (HAB2 : get_column_datatype ds (dt_table cAB) (dt_attribute cAB) s1
            = (s2, Ret (true, tB)))
    (HBC1 : get_column_datatype ds (target_table cBC) (target_attribute cBC)
              u0 = (u1, Ret (true, tB)))
    (HBC2 : get_column_datatype ds (dt_table cBC) (dt_attribute cBC) u1
            = (u2, Ret (true, tC)))
    (HAC1 : get_column_datatype ds (target_table cAC) (target_attribute cAC)
              w0 = (w1, Ret (true, tA)))
    (HAC2 : get_column_datatype ds (dt_table cAC) (dt_attribute cAC) w1
            = (w2, Ret (true, tC)))
    (Hab : snd (are_join_columns_compatible ds cAB s0) = Ret (true, None))
    (Hbc : snd (are_join_columns_compatible ds cBC u0) = Ret (true, None)) :
  are_join_columns_compatible ds cAC w0 = (w2, Ret (true, None)).
Proof.
  rewrite (are_join_columns_compatible_resolved ds cAB s0 s1 s2 tA tB
             HAB1 HAB2) in Hab.
  rewrite (are_join_columns_compatible_resolved ds cBC u0 u1 u2 tB tC
             HBC1 HBC2) in Hbc.
  rewrite (are_join_columns_compatible_resolved ds cAC w0 w1 w2 tA tC
             HAC1 HAC2).
  rewrite incompatible_err_msg_format in Hab, Hbc. cbn [snd omap] in Hab, Hbc.
  rewrite (accepted_trans tA tB tC); [reflexivity| |].
  - destruct (py_eq tA tB
              || is_character_column tA && is_character_column tB
              || is_numeric_column tA && is_numeric_column tB);
      [reflexivity | discriminate].
  - destruct (py_eq tB tC
              || is_character_column tB && is_character_column tC
              || is_numeric_column tB && is_numeric_column tC);
      [reflexivity | discriminate].
Qed.

Lemma compatibility_transitive_witness :
  snd (are_join_columns_compatible sample_datastore
         (checker "parcels" "owner" "census" "geoid") Db0)
  = Ret (true, None).
Proof.
  rewrite (compatibility_transitive sample_datastore
             (checker "parcels" "owner" "census" "name")
             (checker "census" "name" "census" "geoid")
             (checker "parcels" "owner" "census" "geoid")
             Db0 _ _ Db0 _ _ Db0 _ _
             (Some "text") (Some "varchar") (Some "character varying")
             eq_refl eq_refl eq_refl eq_refl eq_refl eq_refl
             eq_refl eq_refl).
  reflexivity.
Defined.

(** ** Calls in sequence *)

Lemma are_join_columns_compatible_accepted_attempts
    (ds : Datastore) (self : ColumnChecker) (st st' : Db) (p : pyval) :
  are_join_columns_compatible ds self st = (st', Ret (true, p)) ->
  attempts st' = attempts st + 2 /\ p = None.
Proof.
  destruct (get_column_datatype ds (target_table self) (target_attribute self)
              st) as [st1 [[[|] t1]|e1]] eqn:H1.
  - destruct (get_column_datatype ds (dt_table self) (dt_attribute self) st1)
      as [st2 [[[|] t2]|e2]] eqn:H2.
    + rewrite (are_join_columns_compatible_resolved ds self
                 st st1 st2 t1 t2 H1 H2).
      rewrite incompatible_err_msg_format.
      apply get_column_datatype_success_attempts in H1, H2.
      destruct (py_eq t1 t2
                || is_character_column t1 && is_character_column t2
                || is_numeric_column t1 && is_numeric_column t2);
        cbn [omap]; intros H; inversion H; subst. split; [lia|reflexivity].
    + rewrite (are_join_columns_compatible_candidate_failed ds self
                 st st1 st2 t1 t2 H1 H2). discriminate.
    + rewrite (are_join_columns_compatible_candidate_raised ds self
                 st st1 st2 t1 e2 H1 H2). discriminate.
  - rewrite (are_join_columns_compatible_target_failed ds self
               st st1 t1 H1). discriminate.
  - rewrite (are_join_columns_compatible_target_raised ds self
               st st1 e1 H1). discriminate.
Qed.

Lemma get_column_join_stmt_accepted_attempts
    (ds : Datastore) (self : ColumnChecker) (with_casting : bool)
    (st st' : Db) (q : pyval) :
  get_column_join_stmt ds self with_casting st = (st', Ret (true, q)) ->
  attempts st' = attempts st + 2 /\ q <> None.
Proof.
  destruct (get_column_datatype ds (target_table self) (target_attribute self)
              st) as [st1 [[[|] t1]|e1]] eqn:H1.
  - destruct (get_column_datatype ds (dt_table self) (dt_attribute self) st1)
      as [st2 [[[|] t2]|e2]] eqn:H2.
    + rewrite (get_column_join_stmt_resolved ds self with_casting
                 st st1 st2 t1 t2 H1 H2).
      rewrite incompatible_err_msg_format.
      apply get_column_datatype_success_attempts in H1, H2.
      destruct (py_eq t1 t2
                || is_character_column t1 && is_character_column t2
                || is_numeric_column t1 && is_numeric_column t2);
        cbn [omap]; intros H; inversion H; subst.
      split; [lia|discriminate].
    + rewrite (get_column_join_stmt_candidate_failed ds self with_casting
                 st st1 st2 t1 t2 H1 H2). discriminate.
    + rewrite (get_column_join_stmt_candidate_raised ds self with_casting
                 st st1 st2 t1 e2 H1 H2). discriminate.
  - rewrite (get_column_join_stmt_target_failed ds self with_casting
               st st1 t1 H1). discriminate.
  - rewrite (get_column_join_stmt_target_raised ds self with_casting
               st st1 e1 H1). discriminate.
Qed.

(** X10. Nothing is kept between calls.  Used as the class comment shows,
    first [are_join_columns_compatible] and then [get_column_join_stmt]
    on the same checker, an accepted pair costs exactly four connection
    attempts, two per call, and all of them are closed at the end. *)
Theorem check_then_join_connects_four_times
    (ds : Datastore) (self : ColumnChecker) (with_casting : bool)
    (st st1 st2 : Db) (p q : pyval)
    (H1 : are_join_columns_compatible ds self st = (st1, Ret (true, p)))
    (H2 : get_column_join_stmt ds self with_casting st1
          = (st2, Ret (true, q))) :
  attempts st1 = attempts st + 2
  /\ attempts st2 = attempts st + 4
  /\ live st2 = live st
  /\ p = None /\ q <> None.
Proof.
  destruct (are_join_columns_compatible_accepted_attempts ds self st st1 p H1)
    as [A1 ->].
  destruct (get_column_join_stmt_accepted_attempts ds self with_casting
              st1 st2 q H2) as [A2 Hq].
  assert (L1 : live st1 = live st).
  { destruct (are_join_columns_compatible_live ds self st)
      as [L|[e [F _]]]; rewrite H1 in *; [exact L | discriminate F]. }
  assert (L2 : live st2 = live st1).
  { destruct (get_column_join_stmt_live ds self with_casting st1)
      as [L|[e [F _]]]; rewrite H2 in *; [exact L | discriminate F]. }
  repeat split; try assumption; try lia; congruence.
Qed.

Lemma check_then_join_connects_four_times_witness :
  attempts
    (fst (get_column_join_stmt sample_datastore
            (checker "parcels" "area" "census" "pop") true
            (fst (are_join_columns_compatible sample_datastore
                    (checker "parcels" "area" "census" "pop") Db0))))
  = 4
  /\ live
       (fst (get_column_join_stmt sample_datastore
               (checker "parcels" "area" "census" "pop") true
               (fst (are_join_columns_compatible sample_datastore
                       (checker "parcels" "area" "census" "pop") Db0))))
     = [].
Proof.
  pose (st1 := fst (are_join_columns_compatible sample_datastore
                      (checker "parcels" "area" "census" "pop") Db0)).
  pose (st2 := fst (get_column_join_stmt sample_datastore
                      (checker "parcels" "area" "census" "pop") true st1)).
  assert (H1 : are_join_columns_compatible sample_datastore
                 (checker "parcels" "area" "census" "pop") Db0
               = (st1, Ret (true, None))) by (vm_compute; reflexivity).
  assert (H2 : get_column_join_stmt sample_datastore
                 (checker "parcels" "area" "census" "pop") true st1
               = (st2,
                  Ret (true,
                       Some ("parcels." ++ dq ++ "area" ++ dq ++ " = census."
                               ++ dq ++ "pop" ++ dq))))
    by (vm_compute; reflexivity).
  destruct (check_then_join_connects_four_times sample_datastore
              (checker "parcels" "area" "census" "pop") true
              Db0 st1 st2 None _ H1 H2) as [_ [A [L _]]].
  split; [exact A | exact L].
Defined.

(** ** A checker built without a name *)

(** X11. The constructor checks nothing, and a checker whose target
    table or target column is [None] fails at the first lookup: both
    entry points return [False] with the text for an unavailable target
    column, and the datastore is not contacted at all. *)
Theorem missing_target_name_fails_offline
    (ds : Datastore) (self : ColumnChecker) (with_casting : bool) (st : Db)
    (H : target_table self = None \/ target_attribute self = None) :
  are_join_columns_compatible ds self st
  = (st, Ret (false, Some "Sorry, the target column is not available."))
  /\ get_column_join_stmt ds self with_casting st
     = (st, Ret (false, Some "Sorry, the target column is not available.")).
Proof.
  assert (Hl : get_column_datatype ds (target_table self)
                 (target_attribute self) st
               = (st, Ret (false,
                    Some "The table_name and table_attribute must be specified."))).
  { apply get_column_datatype_missing.
    destruct H as [-> | ->]; [reflexivity|].
    destruct (target_table self); reflexivity. }
  split.
  - now apply are_join_columns_compatible_target_failed with (1 := Hl).
  - now apply get_column_join_stmt_target_failed with (1 := Hl).
Qed.

Lemma missing_target_name_fails_offline_witness :
  are_join_columns_compatible unreachable_datastore
    {| target_table := Some "parcels"; target_attribute := None;
       dt_table := Some "census"; dt_attribute := Some "geoid" |} Db0
  = (Db0, Ret (false, Some "Sorry, the target column is not available.")).
Proof.
  apply (missing_target_name_fails_offline unreachable_datastore
           {| target_table := Some "parcels"; target_attribute := None;
              dt_table := Some "census"; dt_attribute := Some "geoid" |}
           true Db0).
  right. reflexivity.
Defined.

(** X12. A checker with a target that resolves and a candidate table or
    column that is [None] makes one connection, for the target, and then
    returns [False] with the text for an unavailable candidate type. *)
Theorem missing_candidate_name_fails_after_one_lookup
    (ds : Datastore) (self : ColumnChecker) (with_casting : bool)
    (st st1 : Db) (t1 : pyval)
    (H1 : get_column_datatype ds (target_table self) (target_attribute self)
            st = (st1, Ret (true, t1)))
    (H : dt_table self = None \/ dt_attribute self = None) :
  are_join_columns_compatible ds self st
  = (st1, Ret (false, Some "The data type of your column was not available"))
  /\ get_column_join_stmt ds self with_casting st
     = (st1,
        Ret (false, Some "The data type of your column was not available"))
  /\ attempts st1 = S (attempts st).
Proof.
  assert (Hl : get_column_datatype ds (dt_table self) (dt_attribute self) st1
               = (st1, Ret (false,
                    Some "The table_name and table_attribute must be specified."))).
  { apply get_column_datatype_missing.
    destruct H as [-> | ->]; [reflexivity|].
    destruct (dt_table self); reflexivity. }
  split; [|split].
  - now apply are_join_columns_compatible_candidate_failed
      with (1 := H1) (2 := Hl).
  - now apply get_column_join_stmt_candidate_failed with (1 := H1) (2 := Hl).
  - now apply get_column_datatype_success_attempts in H1.
Qed.

Lemma missing_candidate_name_fails_after_one_lookup_witness :
  exists st1,
    are_join_columns_compatible sample_datastore
      {| target_table := Some "parcels"; target_attribute := Some "geoid";
         dt_table := None; dt_attribute := Some "geoid" |} Db0
    = (st1,
       Ret (false, Some "The data type of your column was not available"))
    /\ attempts st1 = 1.
Proof.
  eexists.
  destruct (missing_candidate_name_fails_after_one_lookup sample_datastore
              {| target_table := Some "parcels";
                 target_attribute := Some "geoid";
                 dt_table := None; dt_attribute := Some "geoid" |}
              true Db0 _ (Some "character varying") eq_refl
              (or_introl eq_refl)) as [Hr [_ Ha]].
  split; [exact Hr | exact Ha].
Defined.

(** ** The two labels of an explanation *)

(** X13. In the explanation of a rejected pair the two class texts are
    the same exactly when both types are present and neither a character
    nor a numeric type (two different names outside both tuples); in
    every other rejection the two texts differ. *)
Theorem rejected_labels_coincide_iff_both_other (t1 t2 : pyval)
    (H : py_eq t1 t2
           || is_character_column t1 && is_character_column t2
           || is_numeric_column t1 && is_numeric_column t2 = false) :
  get_type_text_char_or_numeric t1 = get_type_text_char_or_numeric t2
  <-> classifyType t1 = Other /\ classifyType t2 = Other.
Proof.
  destruct t1 as [s1|], t2 as [s2|].
  - unfold get_type_text_char_or_numeric, classifyType.
    destruct (is_character_column (Some s1)) eqn:C1,
      (is_numeric_column (Some s1)) eqn:N1,
      (is_character_column (Some s2)) eqn:C2,
      (is_numeric_column (Some s2)) eqn:N2;
      cbn [andb] in H; rewrite ?orb_true_r, ?orb_false_r in H;
      try discriminate H;
      (split; [intros K; try discriminate K; split; reflexivity
              | intros [K1 K2]; try discriminate K1; try discriminate K2;
                reflexivity]).
  - unfold get_type_text_char_or_numeric, classifyType.
    split; [|intros [_ K]; discriminate K].
    destruct (is_character_column (Some s1));
      [|destruct (is_numeric_column (Some s1))]; discriminate.
  - unfold get_type_text_char_or_numeric, classifyType.
    split; [|intros [K _]; discriminate K].
    destruct (is_character_column (Some s2));
      [|destruct (is_numeric_column (Some s2))]; discriminate.
  - discriminate H.
Qed.

Lemma rejected_labels_coincide_iff_both_other_witness :
  get_type_text_char_or_numeric (Some "uuid")
  = get_type_text_char_or_numeric (Some "geometry")
  <-> classifyType (Some "uuid") = Other
      /\ classifyType (Some "geometry") = Other.
Proof.
  apply (rejected_labels_coincide_iff_both_other (Some "uuid")
           (Some "geometry")).
  reflexivity.
Defined.
